(** * The record-transfer pipeline of covid19/api/es_app

    A shallow embedding of [api/es_app/parse.py] (class [ElasticParse]) and
    [api/es_app/pipe.py] (function [get_fips], [county_gen_id], class [Pipe]),
    and the properties the specification states about them.

    Python dictionaries are finite maps from field names to values
    ([gmap string value]).  A dictionary that the code mutates while another
    name still refers to it (the entry handed to [entry_to_act] and the copy
    made of it) lives in a heap of objects; dictionaries built by a literal and
    never touched again are plain values.  Everything outside the two modules
    (the HTTP endpoint, [hashlib.md5], [datetime], the casts of strings to
    numbers) is a field of the environment [env]. *)

From Stdlib Require Import ZArith QArith_base String List Lia.
From stdpp Require Import gmap strings list fin_maps pretty.

Set Warnings "-register-all".
Local Open Scope string_scope.
Local Open Scope Z_scope.

(** ** Python values *)

Definition loc := nat.

Inductive value :=
| VNone
| VBool (b : bool)
| VInt (n : Z)
| VFloat (x : Q)          (* a binary64 number; carried, never computed with *)
| VStr (s : string)
| VDatetime (t : Z)       (* a [datetime], as its instant *)
| VList (vs : list value)
| VDict (d : gmap string value)
| VRef (l : loc).         (* a reference to a dictionary object of the heap *)

(** The exceptions the two modules can raise.  [RequestException] stands for
    [requests.exceptions.RequestException] and its subclasses; the status
    carried by [HTTPError] is the one [raise_for_status] refused. *)
Inductive exn :=
| ValueError (msg : string)
| TypeError
| KeyError (key : string)
| AttributeError
| RequestException
| HTTPError (status : Z)
| DatabaseError           (* psycopg2.Error and its subclasses *)
| StaleReference.         (* not Python's: a location that holds no object *)

Definition is_RequestException (e : exn) : bool :=
  match e with
  | RequestException | HTTPError _ => true
  | _ => false
  end.

Inductive result (A : Type) :=
| Ok (a : A)
| Err (e : exn).
Arguments Ok {A} a.
Arguments Err {A} e.

(** [x is not None] *)
Definition is_not_None (v : value) : bool :=
  match v with VNone => false | _ => true end.

(** [isinstance(x, str)] *)
Definition is_str (v : value) : bool :=
  match v with VStr _ => true | _ => false end.

(** Truth value of an object, as [or] and [if] test it. *)
Definition truthy (v : value) : bool :=
  match v with
  | VNone => false
  | VBool b => b
  | VInt n => negb (n =? 0)
  | VFloat x => negb (Qnum x =? 0)
  | VStr s => negb (String.eqb s "")
  | VDatetime _ => true
  | VList vs => match vs with [] => false | _ => true end
  | VDict d => negb (bool_decide (d = ∅))
  | VRef _ => true
  end.

(** [d.get(key)]: the value, or [None] when the key is absent. *)
Definition dict_get (d : gmap string value) (key : string) : value :=
  default VNone (d !! key).

(** A field that is present and holds something other than [None]. *)
Definition present (d : gmap string value) (key : string) : Prop :=
  ∃ v, d !! key = Some v ∧ v ≠ VNone.

(** ''.join(parts): every part has to be a string. *)
Fixpoint join (parts : list value) : result string :=
  match parts with
  | [] => Ok ""
  | VStr s :: rest =>
      match join rest with
      | Ok t => Ok (s ++ t)
      | Err e => Err e
      end
  | _ :: _ => Err TypeError
  end.

(** ** The environment *)

(** What one HTTP GET does: it raises a [RequestException], or it returns a
    response with a status code and a body, taken here as the JSON object the
    body parses to. *)
Inductive http_result :=
| ConnectionFails
| Response (status_code : Z) (json : gmap string value).

Record env := Env {
  (* hashlib.md5(text.encode('utf-8')).hexdigest() *)
  md5_hexdigest : string → string;
  (* the outcome of the n-th GET of a run (n from 0) *)
  requests_get : string → nat → http_result;
  (* str(x) of a float, and of the objects whose text is not modelled *)
  str_float : Q → string;
  str_object : value → string;
  (* datetime.strptime(text, format).timestamp(); None when text does not
     match the format *)
  strptime_timestamp : string → string → option Q;
  (* float(text) and int(text) of a string; None when it is no numeral *)
  float_of_string : string → option Q;
  int_of_string : string → option Z;
  (* d.isoformat() and d.strftime(format) of a datetime *)
  isoformat : Z → string;
  strftime : Z → string → string;
  (* datetime.utcnow() at the n-th event of a run *)
  utcnow : nat → Z;
  (* get_var('ESINDEX', default) *)
  ESINDEX : string → string
}.

(** [str(x)] *)
Definition py_str (E : env) (v : value) : string :=
  match v with
  | VNone => "None"
  | VBool true => "True"
  | VBool false => "False"
  | VInt n => pretty n
  | VFloat x => str_float E x
  | VStr s => s
  | _ => str_object E v
  end.

(** ** The world: heap, network and clock *)

Inductive event :=
| EvClient                 (* an Elasticsearch client object is constructed *)
| EvRequest (url : string) (* requests.get(url) *)
| EvSleep (seconds : Z).   (* time.sleep(seconds) *)

Record world := World {
  heap : gmap loc (gmap string value);
  requests : nat;          (* GETs sent so far *)
  trace : list event       (* what has happened, oldest first *)
}.

(** A computation reads and writes the world and returns or raises; an
    exception keeps the writes made before it.  [None] is the model's own: the
    fuel given to a loop ran out. *)
Definition M (A : Type) : Type := world → option (result A * world).

Definition ret {A} (a : A) : M A := λ w, Some (Ok a, w).
Definition raise {A} (e : exn) : M A := λ w, Some (Err e, w).
Definition out_of_fuel {A} : M A := λ _, None.

Definition bind {A B} (c : M A) (k : A → M B) : M B :=
  λ w, match c w with
       | Some (Ok a, w') => k a w'
       | Some (Err e, w') => Some (Err e, w')
       | None => None
       end.

Notation "'let*' x ':=' c 'in' k" := (bind c (λ x, k))
  (at level 10, x name, c at level 100, k at level 200, only parsing).
Notation "c ';;' k" := (bind c (λ _, k))
  (at level 100, k at level 200, right associativity, only parsing).

Definition lift {A} (r : result A) : M A :=
  match r with Ok a => ret a | Err e => raise e end.

Definition log (ev : event) : M unit :=
  λ w, Some (Ok tt, World (heap w) (requests w) (trace w ++ [ev])).

Definition sleep (seconds : Z) : M unit := log (EvSleep seconds).

(** The delays of a run, in order. *)
Fixpoint sleeps (evs : list event) : list Z :=
  match evs with
  | [] => []
  | EvSleep seconds :: evs' => seconds :: sleeps evs'
  | _ :: evs' => sleeps evs'
  end.

(** The requests of a run, counted. *)
Fixpoint count_requests (evs : list event) : nat :=
  match evs with
  | [] => 0
  | EvRequest _ :: evs' => S (count_requests evs')
  | _ :: evs' => count_requests evs'
  end.

(** [requests.get(url)]: the answer is the environment's for this request. *)
Definition http_get (E : env) (url : string) : M http_result :=
  λ w, Some (Ok (requests_get E url (requests w)),
             World (heap w) (S (requests w)) (trace w ++ [EvRequest url])).

(** *** Dictionary objects *)

Definition dict_read (l : loc) : M (gmap string value) :=
  λ w, match heap w !! l with
       | Some d => Some (Ok d, w)
       | None => Some (Err StaleReference, w)
       end.

Definition dict_write (l : loc) (d : gmap string value) : M unit :=
  λ w, Some (Ok tt, World (<[l := d]> (heap w)) (requests w) (trace w)).

(** [d.copy()]: a new object with the same items. *)
Definition dict_copy (l : loc) : M loc :=
  let* d := dict_read l in
  λ w, let l' := fresh (dom (heap w)) in
       Some (Ok l', World (<[l' := d]> (heap w)) (requests w) (trace w)).

(** [key in d] *)
Definition dict_contains (l : loc) (key : string) : M bool :=
  let* d := dict_read l in
  ret (bool_decide (is_Some (d !! key))).

(** [d[key]] *)
Definition dict_getitem (l : loc) (key : string) : M value :=
  let* d := dict_read l in
  match d !! key with
  | Some v => ret v
  | None => raise (KeyError key)
  end.

(** [d[key] = v] *)
Definition dict_setitem (l : loc) (key : string) (v : value) : M unit :=
  let* d := dict_read l in
  dict_write l (<[key := v]> d).

(** [d.pop(key)] *)
Definition dict_pop (l : loc) (key : string) : M value :=
  let* d := dict_read l in
  match d !! key with
  | Some v => dict_write l (delete key d) ;; ret v
  | None => raise (KeyError key)
  end.

(** [d.pop(key, dflt)] *)
Definition dict_pop_default (l : loc) (key : string) (dflt : value) : M value :=
  let* d := dict_read l in
  match d !! key with
  | Some v => dict_write l (delete key d) ;; ret v
  | None => ret dflt
  end.

(** A computation that returns or raises from every world, whatever the
    fuel, without a request, a sleep or any other event. *)
Definition silent {A} (c : M A) : Prop :=
  ∀ w, ∃ r w', c w = Some (r, w') ∧ requests w' = requests w ∧ trace w' = trace w.

(** ** parse.py *)

Module parse.

(** fips_skeleton.format(latitude=lat, longitude=lon) *)
Definition fips_skeleton (E : env) (latitude longitude : value) : string :=
  "https://geo.fcc.gov/api/census/block/find"
  ++ "?latitude=" ++ py_str E latitude
  ++ "&longitude=" ++ py_str E longitude
  ++ "&showall=false"
  ++ "&format=json".

(** Elasticsearch(hosts=host_list, http_auth=(ESUSER, ESPASS)): the client
    object is built; the library sends nothing until the first request. *)
Definition get_elastic_client : M unit := log EvClient.

(** An instance of class ElasticParse.  The entries are the dictionary
    objects the caller handed over. *)
Record ElasticParse := {
  client : unit;
  _entries : list loc;
  op_type : string;
  body_name : option string
}.

Definition _index (E : env) : string := ESINDEX E "covid-ornl".
Definition _type : string := "record".

Definition op_types : list string := ["index"; "create"; "update"].

Definition body_names : gmap string string :=
  {[ "index" := "_source"; "create" := "_source"; "update" := "doc" ]}.

Definition __init__ (entries : list loc) (op_type : string) : M ElasticParse :=
  let* client := get_elastic_client in
  if negb (bool_decide (op_type ∈ op_types))
  then raise (ValueError "Improper op_type given")
  else ret {| client := client;
              _entries := entries;
              op_type := op_type;
              body_name := body_names !! op_type |}.

Definition gen_id (E : env) (entry : gmap string value) : result string :=
  let county := dict_get entry "county" in
  (* head = county or (lat, lon); a tuple is joined through str *)
  let head :=
    if truthy county then county
    else VStr (py_str E (dict_get entry "lat") ++ py_str E (dict_get entry "lon")) in
  let body := dict_get entry "state" in
  let tail := VStr (py_str E (dict_get entry "scrape_group")) in
  match join [head; body; tail] with
  | Ok seed => Ok (md5_hexdigest E seed)
  | Err e => Err e
  end.

(** The loop of get_fips, one request per round. *)
Fixpoint get_fips_loop (E : env) (fuel : nat) (fips_request : string)
    (attempts : Z) : M (gmap string value) :=
  match fuel with
  | O => out_of_fuel
  | S fuel' =>
      let* response := http_get E fips_request in
      match response with
      | ConnectionFails =>
          if 5 <? attempts then raise RequestException
          else
            sleep (2 ^ attempts) ;;
            get_fips_loop E fuel' fips_request (attempts + 1)
      | Response status_code json =>
          if negb ((200 <=? status_code) && (status_code <? 300))
          then
            sleep (2 ^ attempts) ;;
            get_fips_loop E fuel' fips_request (attempts + 1)
          else ret json
      end
  end.

Definition get_fips (E : env) (fuel : nat) (lat lon : value)
    : M (gmap string value) :=
  get_fips_loop E fuel (fips_skeleton E lat lon) 0.

(** datetime.strptime(text, format).timestamp() *)
Definition strptime (E : env) (text : value) (format : string) : M value :=
  match text with
  | VStr s =>
      match strptime_timestamp E s format with
      | Some t => ret (VFloat t)
      | None => raise (ValueError "time data does not match format")
      end
  | _ => raise TypeError
  end.

Definition entry_to_act (E : env) (fuel : nat) (self : ElasticParse)
    (entry : loc) : M (gmap string value) :=
  let* doc := dict_copy entry in
  let* lat :=
    (let* has_lat := dict_contains doc "lat" in
     if has_lat : bool then dict_pop doc "lat" else ret VNone) in
  let* lon :=
    (let* has_lon := dict_contains doc "lon" in
     if has_lon : bool then dict_pop doc "lon" else ret VNone) in
  (if is_not_None lat && is_not_None lon
   then
     dict_setitem doc "geometry"
       (VDict {[ "coordinates" := VList [lon; lat]; "type" := VStr "Point" ]}) ;;
     let* fips := get_fips E fuel lat lon in
     dict_setitem doc "fips" (VDict fips)
   else ret tt) ;;
  let* state := dict_pop_default doc "state" VNone in
  dict_setitem doc "province/state" state ;;
  let* d := dict_read doc in
  (if is_str (dict_get d "updated")
   then
     let* updated := dict_getitem doc "updated" in
     let* stamp := strptime E updated "%B %d, %Y" in
     dict_setitem doc "updated" stamp
   else ret tt) ;;
  (let* has_page := dict_contains doc "page" in
   if has_page : bool then dict_pop doc "page" ;; ret tt else ret tt) ;;
  let* access_time := dict_getitem doc "access_time" in
  let* stamp := strptime E access_time "%Y-%m-%d %H:%M:%S" in
  dict_setitem doc "access_time" stamp ;;
  let* original := dict_read entry in
  let* id := lift (gen_id E original) in
  let act : gmap string value :=
    <[ "_id" := VStr id ]>
      (<[ "_type" := VStr _type ]> {[ "_index" := VStr (_index E) ]}) in
  ret (match body_name self with
       | Some key => <[ key := VRef doc ]> act
       | None => act   (* a key None is no field name; __init__ never leaves it *)
       end).

(** actions = list(map(self.entry_to_act, self._entries)): the entries in
    order; the first one that raises ends the call. *)
Fixpoint map_entry_to_act (E : env) (fuel : nat) (self : ElasticParse)
    (entries : list loc) : M (list (gmap string value)) :=
  match entries with
  | [] => ret []
  | entry :: entries' =>
      let* act := entry_to_act E fuel self entry in
      let* acts := map_entry_to_act E fuel self entries' in
      ret (act :: acts)
  end.

Definition gen_actions (E : env) (fuel : nat) (self : ElasticParse)
    : M (list (gmap string value)) :=
  let* actions := map_entry_to_act E fuel self (_entries self) in
  (* [act.update({'_op_type': self.op_type}) for act in actions] *)
  ret (map (λ act : gmap string value, <["_op_type" := VStr (op_type self)]> act)
           actions).

(** An outcome of a request that the loop of [get_fips] answers by sleeping
    and asking again: a status outside 200..299, or a connection error while
    [attempts] is at most 5. *)
Definition retried (r : http_result) (attempts : Z) : Prop :=
  match r with
  | ConnectionFails => attempts ≤ 5
  | Response status_code _ => ¬ (200 ≤ status_code < 300)
  end.

(** The delays 2 ^ first, 2 ^ (first + 1), ... of [k] rounds. *)
Definition delays (first : Z) (k : nat) : list Z :=
  map (λ i : nat, 2 ^ (first + Z.of_nat i)) (seq 0 k).

End parse.

(** ** pipe.py *)

Module pipe.

(** fips_api.format(latitude=lat, longitude=lon) *)
Definition fips_api (E : env) (latitude longitude : value) : string :=
  "https://geo.fcc.gov/api/census/block/find?"
  ++ "latitude=" ++ py_str E latitude
  ++ "&longitude=" ++ py_str E longitude
  ++ "&showall=false"
  ++ "&format=json".

(** Modelled from the spec: the decorator [Backoff] of es_app/common.py is not
    among the sources.  Section 4.3: a transient failure is retried with
    exponential backoff, the delay doubling each attempt starting at 1 time
    unit; this call path has no explicit attempt bound.  [catches] is the
    exception class the decorator is given. *)
Fixpoint Backoff {A} (catches : exn → bool) (call : M A) (fuel : nat)
    (attempt : Z) : M A :=
  match fuel with
  | O => out_of_fuel
  | S fuel' =>
      λ w, match call w with
           | Some (Err e, w') =>
               if catches e
               then (sleep (2 ^ attempt) ;;
                     Backoff catches call fuel' (attempt + 1)) w'
               else Some (Err e, w')
           | r => r
           end
  end.

(** response.raise_for_status() *)
Definition raise_for_status (status_code : Z) : M unit :=
  if (400 <=? status_code) && (status_code <? 600)
  then raise (HTTPError status_code)
  else ret tt.

(** The body of get_fips, under the decorator. *)
Definition get_fips_body (E : env) (lat lon : value) (scope : Z)
    : M (gmap string value) :=
  let url := fips_api E lat lon in
  let* response := http_get E url in
  match response with
  | ConnectionFails => raise RequestException
  | Response status_code json =>
      raise_for_status status_code ;;
      let resj := json in
      let resj :=
        if (scope <? 2) && bool_decide (is_Some (resj !! "Block"))
        then delete "Block" resj else resj in
      if (scope <? 1) && bool_decide (is_Some (resj !! "County"))
      then
        match resj !! "State" with
        | Some _ => ret (delete "State" resj)
        | None => raise (KeyError "State")
        end
      else ret resj
  end.

(** get_fips as the module exports it: decorated with
    Backoff(requests.exceptions.RequestException). *)
Definition get_fips (E : env) (fuel : nat) (lat lon : value) (scope : Z)
    : M (gmap string value) :=
  Backoff is_RequestException (get_fips_body E lat lon scope) fuel 0.

Definition dt_to_str (E : env) (item : value) : result string :=
  match item with
  | VDatetime t => Ok (isoformat E t)
  | _ => Err AttributeError
  end.

Definition access_to_scrape (E : env) (item : value) : result string :=
  match item with
  | VDatetime t => Ok (strftime E t "%Y%m%d%H")
  | _ => Err AttributeError
  end.

Definition county_gen_id (E : env) (item : gmap string value) : result string :=
  match dt_to_str E (dict_get item "access_time") with
  | Err e => Err e
  | Ok head =>
      match join (map (λ key, default (VStr "") (item !! key))
                      ["country"; "state"; "county_name"]) with
      | Ok rest => Ok (md5_hexdigest E (head ++ rest))
      | Err e => Err e
      end
  end.

(** The casts the transformation table names. *)
Definition py_int (E : env) (v : value) : result value :=
  match v with
  | VInt n => Ok (VInt n)
  | VBool b => Ok (VInt (if b then 1 else 0))
  | VFloat x => Ok (VInt (Z.quot (Qnum x) (Z.pos (Qden x))))
  | VStr s =>
      match int_of_string E s with
      | Some n => Ok (VInt n)
      | None => Err (ValueError "invalid literal for int()")
      end
  | _ => Err TypeError
  end.

Definition py_float (E : env) (v : value) : result value :=
  match v with
  | VFloat x => Ok (VFloat x)
  | VInt n => Ok (VFloat (inject_Z n))
  | VBool b => Ok (VFloat (inject_Z (if b then 1 else 0)))
  | VStr s =>
      match float_of_string E s with
      | Some x => Ok (VFloat x)
      | None => Err (ValueError "could not convert string to float")
      end
  | _ => Err TypeError
  end.

Definition str (E : env) (v : value) : result value := Ok (VStr (py_str E v)).

Definition as_value (f : value → result string) (v : value) : result value :=
  match f v with
  | Ok s => Ok (VStr s)
  | Err e => Err e
  end.

(** Modelled from the spec: [make_getter] of es_app/common.py is not among the
    sources.  Section 3: an extractor reads a Record field and applies a type
    cast; section 4.2: a missing source field yields null in the target field,
    silently.  A field that holds null yields null as well. *)
Definition mg (key : string) (type_ : value → result value)
    (item : gmap string value) : result value :=
  match dict_get item key with
  | VNone => Ok VNone
  | v => type_ v
  end.

Definition TCFG : Type := list (string * (gmap string value → result value)).

Definition pg_to_es_county_config (E : env) : TCFG := [
  ("access_time", mg "access_time" (as_value (dt_to_str E)));
  ("cases", mg "cases" (py_int E));
  ("cases_female", mg "sex_female_cases" (py_float E));
  ("cases_male", mg "sex_male_cases" (py_float E));
  ("country", mg "country" (str E));
  ("county", mg "county_name" (str E));
  ("deaths", mg "deaths" (py_int E));
  ("hospitalized", mg "hospitalized" (py_int E));
  ("inconclusive", mg "inconclusive" (py_int E));
  ("lat", mg "county_lat" (py_float E));
  ("lon", mg "county_lon" (py_float E));
  ("monitored", mg "monitored" (py_int E));
  ("negative", mg "negative" (py_int E));
  ("no_longer_monitored", mg "no_longer_monitored" (py_int E));
  ("pending", mg "pending" (py_float E));
  ("recovered", mg "recovered" (py_int E));
  ("scrape_group", mg "access_time" (as_value (access_to_scrape E)));
  ("state", mg "state" (str E));
  ("tested", mg "tested" (py_int E));
  ("updated", mg "updated" (as_value (dt_to_str E)))
].

(** An instance of class Pipe. *)
Record Pipe := {
  limit : Z;
  transfer_count : Z;
  from_to : string
}.

Definition _op_type : string := "index".
Definition _index (E : env) : string := ESINDEX E "covid19-custom-ornl".
Definition transform_config : env → TCFG := pg_to_es_county_config.

(** query_skeleton.format(from_to=from_to) *)
Definition query_skeleton (from_to : string) : string :=
  "select * from public.get_ps_data(" ++ from_to ++ ")".

(** A string is true when it is not empty. *)
Definition nonempty (s : string) : bool := negb (String.eqb s "").

Definition __init__ (limit : Z) (from_ to : string) : Pipe :=
  {| limit := limit;
     transfer_count := 0;
     from_to :=
       if nonempty from_ && nonempty to then from_ ++ ", " ++ to
       else if nonempty from_ then from_
       else if nonempty to then "1970-01-01" ++ ", " ++ to
       else "" |}.

(** *** The source generator

    [gen_data_source] is a generator: its body runs between two [next()] of the
    consumer and stands still at a [yield].  The Pipe object is shared with the
    consumer, which reads [transfer_count] between two pulls. *)

(** The database, as one run of [gen_data_source] meets it. *)
Record source := {
  connect_fails : bool;              (* gen_pg_client() raises *)
  execute_fails : bool;              (* pg_cursor.execute(query) raises *)
  fetch_fails : nat → bool;          (* the n-th fetchmany (n from 0) raises *)
  table : list (gmap string value)   (* the rows the query selects, in order *)
}.

Inductive cursor_state :=
| NoCursor          (* pg_connect.cursor(...) has not run *)
| CursorOpen
| CursorClosed.     (* pg_cursor.close() has run *)

(** Where the body stands. *)
Inductive frame :=
| Created                                    (* before the first next() *)
| AtYield (pending : list (gmap string value))
    (* at [yield item]; pending: what the [for] has left of the chunk *)
| Finished.                                  (* returned, raised or closed *)

Record generator := {
  pc : frame;
  cursor : cursor_state;
  query : option string;               (* the query handed to execute *)
  unread : list (gmap string value);   (* rows the cursor has not delivered *)
  fetches : nat                        (* fetchmany calls so far *)
}.

(** What a [next()] gives the consumer. *)
Inductive signal :=
| Yield (item : gmap string value)
| StopIteration
| Raised (e : exn).

Definition state : Type := Pipe * generator.

(** self.gen_data_source(chunk_size): the generator object, nothing run yet. *)
Definition gen_data_source : generator :=
  {| pc := Created; cursor := NoCursor; query := None; unread := []; fetches := 0 |}.

Definition at_frame (f : frame) (g : generator) : generator :=
  {| pc := f; cursor := cursor g; query := query g;
     unread := unread g; fetches := fetches g |}.

(** The cursor after one more fetchmany that succeeded. *)
Definition fetched (chunk_size : nat) (g : generator) : generator :=
  {| pc := pc g; cursor := cursor g; query := query g;
     unread := drop chunk_size (unread g);
     fetches := S (fetches g) |}.

(** pg_cursor.fetchmany(chunk_size) *)
Definition fetchmany (src : source) (chunk_size : nat) (g : generator)
    : result (list (gmap string value)) * generator :=
  if fetch_fails src (fetches g)
  then (Err DatabaseError,
        {| pc := pc g; cursor := cursor g; query := query g;
           unread := unread g; fetches := S (fetches g) |})
  else (Ok (take chunk_size (unread g)), fetched chunk_size g).

(** self.transfer_count += 1 *)
Definition counted (self : Pipe) : Pipe :=
  {| limit := limit self;
     transfer_count := transfer_count self + 1;
     from_to := from_to self |}.

(** The last statement: pg_cursor.close(), and the generator returns. *)
Definition close_and_return (st : state) : signal * state :=
  let '(self, g) := st in
  (StopIteration,
   (self, {| pc := Finished; cursor := CursorClosed; query := query g;
             unread := unread g; fetches := fetches g |})).

(** An exception leaves the body at once. *)
Definition propagate (e : exn) (st : state) : signal * state :=
  let '(self, g) := st in (Raised e, (self, at_frame Finished g)).

(** The [while] loop from its test.  [_data_stream] is the truth value of the
    chunk last fetched ([True] at the start).  A round fetches a chunk and
    enters the [for]: with a first item the body stands at its [yield]; with
    none the test is made again on the empty chunk and fails. *)
Definition while_loop (src : source) (chunk_size : nat) (_data_stream : bool)
    (st : state) : signal * state :=
  let '(self, g) := st in
  let test :=
    if limit self =? -1 then _data_stream
    else _data_stream && (transfer_count self <? limit self) in
  if test then
    match fetchmany src chunk_size g with
    | (Err e, g') => propagate e (self, g')
    | (Ok [], g') => close_and_return (self, g')
    | (Ok (item :: pending), g') => (Yield item, (self, at_frame (AtYield pending) g'))
    end
  else close_and_return st.

(** The generator once the cursor is open and the query has run. *)
Definition opened (src : source) (self : Pipe) : generator :=
  {| pc := Created; cursor := CursorOpen;
     query := Some (query_skeleton (from_to self));
     unread := table src; fetches := 0 |}.

(** From the call to the first [yield]. *)
Definition start (src : source) (chunk_size : nat) (st : state) : signal * state :=
  let '(self, g) := st in
  if connect_fails src then propagate DatabaseError st
  else
    let q := query_skeleton (from_to self) in
    let g := {| pc := pc g; cursor := CursorOpen; query := Some q;
                unread := unread g; fetches := fetches g |} in
    if execute_fails src then propagate DatabaseError (self, g)
    else
      let g := {| pc := pc g; cursor := cursor g; query := query g;
                  unread := table src; fetches := fetches g |} in
      while_loop src chunk_size true (self, g).

(** From a [yield] to the next one. *)
Definition resume (src : source) (chunk_size : nat)
    (pending : list (gmap string value)) (st : state) : signal * state :=
  let '(self, g) := st in
  let self := counted self in
  (* the loop of the limited branch alone tests the count and breaks *)
  if negb (limit self =? -1) && (limit self <=? transfer_count self)
  then while_loop src chunk_size true (self, g)
  else
    match pending with
    | item :: pending' => (Yield item, (self, at_frame (AtYield pending') g))
    | [] => while_loop src chunk_size true (self, g)
    end.

(** next(generator) *)
Definition next (src : source) (chunk_size : nat) (st : state) : signal * state :=
  match pc (snd st) with
  | Created => start src chunk_size st
  | AtYield pending => resume src chunk_size pending st
  | Finished => (StopIteration, st)
  end.

(** generator.close(), and what happens to a generator the consumer drops:
    GeneratorExit is raised at the [yield]; the body has no handler. *)
Definition close (st : state) : state :=
  let '(self, g) := st in (self, at_frame Finished g).

(** A consumer that pulls [n] times. *)
Fixpoint pull (src : source) (chunk_size : nat) (n : nat) (st : state)
    : list signal * state :=
  match n with
  | O => ([], st)
  | S n' =>
      let '(sig, st') := next src chunk_size st in
      let '(sigs, st'') := pull src chunk_size n' st' in
      (sig :: sigs, st'')
  end.

(** A consumer that pulls until the generator stops or raises. *)
Fixpoint drain (src : source) (chunk_size : nat) (fuel : nat) (st : state)
    : option (list (gmap string value) * signal * state) :=
  match fuel with
  | O => None
  | S fuel' =>
      match next src chunk_size st with
      | (Yield item, st') =>
          match drain src chunk_size fuel' st' with
          | Some (items, last, st'') => Some (item :: items, last, st'')
          | None => None
          end
      | (last, st') => Some ([], last, st')
      end
  end.

(** What is seen of a drained run: how many records came out, how it ended,
    and the state of the cursor at the end. *)
Definition observed (run : option (list (gmap string value) * signal * state))
    : option (nat * signal * cursor_state) :=
  match run with
  | Some (items, last, st) => Some (length items, last, cursor (snd st))
  | None => None
  end.

(** The records among the signals of a run. *)
Definition is_Yield (s : signal) : bool :=
  match s with Yield _ => true | _ => false end.

Definition pulled (sigs : list signal) : Z :=
  Z.of_nat (length (List.filter is_Yield sigs)).

(** The generator stands at a [yield]: the consumer holds a record that the
    body has not counted yet. *)
Definition suspended (st : state) : bool :=
  match pc (snd st) with AtYield _ => true | _ => false end.

(** What holds of the count and the cursor wherever the body stands, for
    [pulled] records handed out so far. *)
Definition consistent (src : source) (pulled : Z) (st : state) : Prop :=
  let '(self, g) := st in
  (0 ≤ limit self → transfer_count self ≤ limit self)
  ∧ match pc g with
    | Created => transfer_count self = 0 ∧ pulled = 0 ∧ cursor g = NoCursor
    | AtYield _ =>
        transfer_count self + 1 = pulled
        ∧ (limit self ≠ -1 → transfer_count self < limit self)
        ∧ cursor g = CursorOpen
        ∧ connect_fails src = false
    | Finished => transfer_count self = pulled
    end.

(** How many records a generator that stands at a [yield] still hands out,
    when [remaining] rows are left in the chunk and on the server. *)
Definition due (self : Pipe) (remaining : list (gmap string value)) : nat :=
  if limit self =? -1 then length remaining
  else Z.to_nat (limit self - transfer_count self - 1).

(** The body goes on after a [yield]: there is no limit, or the count with
    the record just handed out stays below it. *)
Definition goes_on (self : Pipe) : Prop :=
  limit self = -1 ∨ transfer_count self + 1 < limit self.

(** *** The transformation *)

(** for key, val in config.items(): doc[key] = val(data_point) *)
Fixpoint fill (config : TCFG) (data_point doc : gmap string value)
    : result (gmap string value) :=
  match config with
  | [] => Ok doc
  | (key, val) :: config' =>
      match val data_point with
      | Ok v => fill config' data_point (<[key := v]> doc)
      | Err e => Err e
      end
  end.

(** datetime.utcnow().isoformat() *)
Definition utcnow_isoformat (E : env) : M string :=
  λ w, Some (Ok (isoformat E (utcnow E (length (trace w)))), w).

Definition _transform_data_to_document (E : env) (fuel : nat)
    (data_point : gmap string value) (lat_name lon_name : string)
    : M (gmap string value) :=
  let* doc := lift (fill (transform_config E) data_point ∅) in
  let geo_check :=
    forallb id [
      bool_decide (is_Some (doc !! lat_name));
      is_not_None (dict_get doc lat_name);
      bool_decide (is_Some (doc !! lon_name));
      is_not_None (dict_get doc lon_name)
    ] in
  let* doc :=
    (if geo_check
     then
       let* fips := get_fips E fuel (dict_get doc lat_name) (dict_get doc lon_name) 1 in
       let doc := <["fips" := VDict fips]> doc in
       ret (<["geometry" :=
               VDict {[ "coordinates" :=
                          VDict {[ "lat" := dict_get doc lat_name;
                                   "lon" := dict_get doc lon_name ]};
                        "type" := VStr "Point" ]}]> doc)
     else ret doc) in
  let doc := <["provider" := VStr "state"]> doc in
  let* now := utcnow_isoformat E in
  ret (<["createdAt" := VStr now]> doc).

Definition gen_action_from_data (E : env) (fuel : nat)
    (data_point : gmap string value) : M (gmap string value) :=
  let* id := lift (county_gen_id E data_point) in
  let* source := _transform_data_to_document E fuel data_point "lat" "lon" in
  ret (<["_source" := VDict source]>
         (<["_id" := VStr id]>
            (<["_index" := VStr (_index E)]> {[ "_op_type" := VStr _op_type ]}))).

(** The records among the signals of a run, in the order they came out. *)
Fixpoint records (sigs : list signal) : list (gmap string value) :=
  match sigs with
  | [] => []
  | Yield item :: sigs' => item :: records sigs'
  | _ :: sigs' => records sigs'
  end.

(** The rows a generator has not handed out yet. *)
Definition remaining (src : source) (st : state) : list (gmap string value) :=
  match pc (snd st) with
  | Created => table src
  | AtYield pending => pending ++ unread (snd st)
  | Finished => []
  end.

(** The target fields of the transformation table. *)
Definition table_fields : list string :=
  ["access_time"; "cases"; "cases_female"; "cases_male"; "country"; "county";
   "deaths"; "hospitalized"; "inconclusive"; "lat"; "lon"; "monitored";
   "negative"; "no_longer_monitored"; "pending"; "recovered"; "scrape_group";
   "state"; "tested"; "updated"].

End pipe.

(** ** Sample runs

    A small environment and a few records, for the concrete runs below. *)

Module sample.

Definition fcc_block : gmap string value :=
  {[ "Block" := VDict {[ "FIPS" := VStr "470930046101000" ]};
     "County" := VDict {[ "FIPS" := VStr "47093"; "name" := VStr "Knox" ]};
     "State" := VDict {[ "FIPS" := VStr "47"; "code" := VStr "TN" ]} ]}.

(** Every GET is answered 200 with [fcc_block]; the hash is a stand-in that
    shows its seed; dates and numerals are not parsed. *)
Definition up : env := {|
  md5_hexdigest := λ seed, "md5(" ++ seed ++ ")";
  requests_get := λ _ _, Response 200 fcc_block;
  str_float := λ x, pretty (Qnum x) ++ "/" ++ pretty (Z.pos (Qden x));
  str_object := λ _, "<object>";
  strptime_timestamp := λ _ _, Some (inject_Z 1585742400);
  float_of_string := λ _, None;
  int_of_string := λ _, None;
  isoformat := λ t, "T" ++ pretty t;
  strftime := λ t _, "G" ++ pretty t;
  utcnow := λ _, 1585742400;
  ESINDEX := λ dflt, dflt
|}.

(** The same, with an endpoint where every GET raises. *)
Definition down : env := {|
  md5_hexdigest := md5_hexdigest up;
  requests_get := λ _ _, ConnectionFails;
  str_float := str_float up;
  str_object := str_object up;
  strptime_timestamp := strptime_timestamp up;
  float_of_string := float_of_string up;
  int_of_string := int_of_string up;
  isoformat := isoformat up;
  strftime := strftime up;
  utcnow := utcnow up;
  ESINDEX := ESINDEX up
|}.

(** The same, with an endpoint that answers 503 to every GET. *)
Definition unavailable : env := {|
  md5_hexdigest := md5_hexdigest up;
  requests_get := λ _ _, Response 503 ∅;
  str_float := str_float up;
  str_object := str_object up;
  strptime_timestamp := strptime_timestamp up;
  float_of_string := float_of_string up;
  int_of_string := int_of_string up;
  isoformat := isoformat up;
  strftime := strftime up;
  utcnow := utcnow up;
  ESINDEX := ESINDEX up
|}.

(** The same, with an endpoint that fails twice, by a connection error and
    by a 503, and answers from the third GET on. *)
Definition flaky : env := {|
  md5_hexdigest := md5_hexdigest up;
  requests_get := λ _ n,
    match n with
    | 0%nat => ConnectionFails
    | 1%nat => Response 503 ∅
    | _ => Response 200 fcc_block
    end;
  str_float := str_float up;
  str_object := str_object up;
  strptime_timestamp := strptime_timestamp up;
  float_of_string := float_of_string up;
  int_of_string := int_of_string up;
  isoformat := isoformat up;
  strftime := strftime up;
  utcnow := utcnow up;
  ESINDEX := ESINDEX up
|}.

(** The same, with an endpoint whose answer names a county and no state. *)
Definition stateless : env := {|
  md5_hexdigest := md5_hexdigest up;
  requests_get := λ _ _, Response 200 (delete "State" fcc_block);
  str_float := str_float up;
  str_object := str_object up;
  strptime_timestamp := strptime_timestamp up;
  float_of_string := float_of_string up;
  int_of_string := int_of_string up;
  isoformat := isoformat up;
  strftime := strftime up;
  utcnow := utcnow up;
  ESINDEX := ESINDEX up
|}.

Definition lat0 : value := VFloat (inject_Z 40).
Definition lon0 : value := VFloat (inject_Z (-75)).

(** An entry of a scraper, as parse.py receives it. *)
Definition entry0 : gmap string value :=
  {[ "county" := VStr "Knox"; "state" := VStr "Tennessee";
     "lat" := lat0; "lon" := lon0; "cases" := VInt 12;
     "scrape_group" := VInt 7; "page" := VStr "<html>";
     "access_time" := VStr "2020-04-01 12:00:00" ]}.

(** The same entry without its state. *)
Definition entry_no_state : gmap string value := delete "state" entry0.

(** An entry without coordinates that brings a field geometry of its own. *)
Definition entry_own_geometry : gmap string value :=
  <["geometry" := VStr "POINT(-75 40)"]> (delete "lon" (delete "lat" entry0)).

(** A row of the database, as pipe.py receives it. *)
Definition row0 : gmap string value :=
  {[ "access_time" := VDatetime 1585742400; "country" := VStr "US";
     "state" := VStr "Tennessee"; "county_name" := VStr "Knox";
     "county_lat" := lat0; "county_lon" := lon0; "cases" := VInt 12 ]}.

Definition row_no_access_time : gmap string value := delete "access_time" row0.

Definition row1 : gmap string value := <["county_name" := VStr "Blount"]> row0.
Definition row2 : gmap string value := <["county_name" := VStr "Anderson"]> row0.

(** A world with one entry in the heap, and nothing sent. *)
Definition w0 : world := {| heap := {[ 0%nat := entry0 ]}; requests := 0; trace := [] |}.

(** The action builder that [__init__] makes for the kind index. *)
Definition builder : parse.ElasticParse := {|
  parse.client := tt;
  parse._entries := [0%nat];
  parse.op_type := "index";
  parse.body_name := Some "_source"
|}.

(** A world with that entry in the heap. *)
Definition w1 : world :=
  {| heap := {[ 0%nat := entry_own_geometry ]}; requests := 0; trace := [] |}.

(** Databases: three rows and no failure; the same with a second fetch that
    raises. *)
Definition db3 : pipe.source := {|
  pipe.connect_fails := false;
  pipe.execute_fails := false;
  pipe.fetch_fails := λ _, false;
  pipe.table := [row0; row1; row2]
|}.

Definition db3_broken : pipe.source := {|
  pipe.connect_fails := false;
  pipe.execute_fails := false;
  pipe.fetch_fails := λ n, bool_decide (n = 1%nat);
  pipe.table := [row0; row1; row2]
|}.

End sample.

Import sample.

(** * Properties *)

(** ** Construction: [ElasticParse.__init__] and [Pipe.__init__] *)

Lemma elem_of_op_types (op : string) :
  op ∈ parse.op_types ↔ op = "index" ∨ op = "create" ∨ op = "update".
Proof.
  unfold parse.op_types. rewrite !elem_of_cons, elem_of_nil. tauto.
Qed.

(** C8.  Constructing the action builder raises ValueError if and only if the
    operation kind is none of index, create and update.  It raises at
    construction: the world after the raise is the world before it with the
    client object built and nothing else done (no request sent, no object
    written).  An accepted kind is kept, with the payload key '_source' for
    index and create and 'doc' for update. *)
Theorem init_validates_op_type (entries : list loc) (op : string) (w : world) :
  let w' := {| heap := heap w; requests := requests w;
               trace := trace w ++ [EvClient] |} in
  let accepted := op = "index" ∨ op = "create" ∨ op = "update" in
  ((∃ msg w1, parse.__init__ entries op w = Some (Err (ValueError msg), w1))
     ↔ ¬ accepted)
  ∧ (¬ accepted →
       parse.__init__ entries op w
       = Some (Err (ValueError "Improper op_type given"), w'))
  ∧ (accepted →
       ∃ self, parse.__init__ entries op w = Some (Ok self, w')
         ∧ parse.op_type self = op
         ∧ parse.body_name self
           = Some (if bool_decide (op = "update") then "doc" else "_source")).
Proof.
  intros w' accepted. subst w' accepted.
  unfold parse.__init__, parse.get_elastic_client, bind, log, raise, ret.
  cbn [negb]. rewrite <- elem_of_op_types.
  destruct (bool_decide_reflect (op ∈ parse.op_types)) as [Hin | Hout]; cbn [negb].
  - split; [| split].
    + split; [intros (msg & w1 & H); discriminate | tauto].
    + tauto.
    + intros _. eexists. split; [reflexivity |]. split; [reflexivity |].
      cbn [parse.body_name]. apply elem_of_op_types in Hin.
      destruct Hin as [-> | [-> | ->]]; reflexivity.
  - split; [| split].
    + split; [tauto | intros _; eauto].
    + reflexivity.
    + tauto.
Qed.

(** A kind that is accepted, and one that is refused. *)
Lemma init_validates_op_type_witness :
  (∃ self, parse.__init__ [0%nat] "update" w0
           = Some (Ok self, {| heap := heap w0; requests := 0; trace := [EvClient] |})
     ∧ parse.op_type self = "update"
     ∧ parse.body_name self = Some "doc")
  ∧ parse.__init__ [0%nat] "delete" w0
    = Some (Err (ValueError "Improper op_type given"),
            {| heap := heap w0; requests := 0; trace := [EvClient] |}).
Proof.
  destruct (init_validates_op_type [0%nat] "update" w0) as (_ & _ & Hyes).
  destruct (init_validates_op_type [0%nat] "delete" w0) as (_ & Hno & _).
  split.
  - apply Hyes. right. right. reflexivity.
  - apply Hno. intros [H | [H | H]]; discriminate H.
Defined.

Lemma nonempty_false (s : string) : pipe.nonempty s = false ↔ s = "".
Proof.
  unfold pipe.nonempty. rewrite negb_false_iff. apply String.eqb_eq.
Qed.

Lemma nonempty_true (s : string) : pipe.nonempty s = true ↔ s ≠ "".
Proof.
  unfold pipe.nonempty. rewrite negb_true_iff. apply String.eqb_neq.
Qed.

(** The first [next()] hands the query built from [from_to] to the cursor. *)
Lemma next_executes_query (self : pipe.Pipe) (src : pipe.source) (chunk_size : nat) :
  pipe.connect_fails src = false →
  pipe.query (snd (snd (pipe.next src chunk_size (self, pipe.gen_data_source))))
  = Some (pipe.query_skeleton (pipe.from_to self)).
Proof.
  intros Hconn.
  unfold pipe.next, pipe.gen_data_source. cbn [snd pipe.pc].
  unfold pipe.start. rewrite Hconn.
  destruct (pipe.execute_fails src); [reflexivity |].
  unfold pipe.while_loop, pipe.fetchmany, pipe.propagate, pipe.close_and_return,
    pipe.at_frame.
  repeat case_match; simplify_eq/=; reflexivity.
Qed.

(** C10.  A pipeline built with an upper bound [to] and no lower bound queries
    the range from '1970-01-01' to [to]; with a lower bound alone, the lower
    bound alone; with neither, the empty argument.  The argument is the text
    put between the parentheses of the query that the generator executes. *)
Theorem init_date_range (limit : Z) (from_ to : string) :
  let self := pipe.__init__ limit from_ to in
  (from_ = "" → to ≠ "" → pipe.from_to self = "1970-01-01, " ++ to)
  ∧ (from_ ≠ "" → to = "" → pipe.from_to self = from_)
  ∧ (from_ = "" → to = "" → pipe.from_to self = "")
  ∧ (∀ src chunk_size, pipe.connect_fails src = false →
       pipe.query (snd (snd (pipe.next src chunk_size (self, pipe.gen_data_source))))
       = Some ("select * from public.get_ps_data(" ++ pipe.from_to self ++ ")")).
Proof.
  intros self. split; [| split; [| split]].
  - intros -> Hto. subst self. cbn [pipe.__init__ pipe.from_to].
    apply nonempty_true in Hto. rewrite Hto. reflexivity.
  - intros Hfrom ->. subst self. cbn [pipe.__init__ pipe.from_to].
    apply nonempty_true in Hfrom. rewrite Hfrom. reflexivity.
  - intros -> ->. reflexivity.
  - intros src chunk_size Hconn. apply next_executes_query, Hconn.
Qed.

Lemma init_date_range_witness :
  pipe.from_to (pipe.__init__ 10 "" "2020-04-01") = "1970-01-01, 2020-04-01"
  ∧ pipe.from_to (pipe.__init__ 10 "2020-03-01" "") = "2020-03-01"
  ∧ pipe.from_to (pipe.__init__ 10 "" "") = ""
  ∧ pipe.query (snd (snd (pipe.next db3 500 (pipe.__init__ 10 "" "2020-04-01",
                                              pipe.gen_data_source))))
    = Some "select * from public.get_ps_data(1970-01-01, 2020-04-01)".
Proof.
  destruct (init_date_range 10 "" "2020-04-01") as (Hto & _ & _ & Hq).
  destruct (init_date_range 10 "2020-03-01" "") as (_ & Hfrom & _ & _).
  destruct (init_date_range 10 "" "") as (_ & _ & Hnone & _).
  split; [apply Hto; [reflexivity | discriminate] |].
  split; [apply Hfrom; [discriminate | reflexivity] |].
  split; [apply Hnone; reflexivity |].
  rewrite (Hq db3 500%nat); reflexivity.
Defined.

(** ** The identity hash: [gen_id] and [county_gen_id] *)

(** Where the hash does degrade: an entry with nothing but a state is hashed
    from the text of the missing fields. *)
Lemma gen_id_of_state_alone (E : env) (state : string) :
  parse.gen_id E {[ "state" := VStr state ]}
  = Ok (md5_hexdigest E ("NoneNone" ++ state ++ "None")).
Proof.
  unfold parse.gen_id, dict_get.
  rewrite lookup_singleton_eq.
  rewrite !lookup_singleton_ne by discriminate.
  reflexivity.
Qed.

(** A row with nothing but its access time is hashed from that time. *)
Lemma county_gen_id_of_access_time_alone (E : env) (t : Z) :
  pipe.county_gen_id E {[ "access_time" := VDatetime t ]}
  = Ok (md5_hexdigest E (isoformat E t ++ "")).
Proof.
  unfold pipe.county_gen_id, dict_get.
  rewrite lookup_singleton_eq. cbn [default pipe.dt_to_str map].
  rewrite !lookup_singleton_ne by discriminate.
  reflexivity.
Qed.

(** C3.  What the code does where the claim says it degrades: [gen_id] raises
    TypeError on every entry without a state (''.join meets None), and
    [county_gen_id] raises AttributeError on every row without an access time
    (None has no isoformat). *)
Theorem identity_hash_raises_on_missing_field (E : env) :
  (∀ entry : gmap string value,
     entry !! "state" = None → parse.gen_id E entry = Err TypeError)
  ∧ (∀ item : gmap string value,
       item !! "access_time" = None →
       pipe.county_gen_id E item = Err AttributeError).
Proof.
  split.
  - intros entry Hstate. unfold parse.gen_id.
    replace (dict_get entry "state") with VNone
      by (unfold dict_get; rewrite Hstate; reflexivity).
    destruct (truthy (dict_get entry "county")); [| reflexivity].
    destruct (dict_get entry "county"); reflexivity.
  - intros item Htime. unfold pipe.county_gen_id, dict_get.
    rewrite Htime. reflexivity.
Qed.

Lemma identity_hash_raises_on_missing_field_witness :
  parse.gen_id up entry_no_state = Err TypeError
  ∧ pipe.county_gen_id up row_no_access_time = Err AttributeError.
Proof.
  destruct (identity_hash_raises_on_missing_field up) as [Hparse Hpipe].
  split.
  - apply Hparse. reflexivity.
  - apply Hpipe. reflexivity.
Defined.

(** ** The geocode lookup of pipe.py: trimming by scope *)

(** C2.  What [get_fips] returns for a 2xx response that holds State, County
    and Block, answered at the first attempt: below scope 1 the block without
    Block and without State (County stays), at scope 1 the block without
    Block, from scope 2 on the whole block. *)
Theorem get_fips_trims_by_scope (E : env) (fuel : nat) (lat lon : value)
    (scope status : Z) (json : gmap string value) (w : world) :
  requests_get E (pipe.fips_api E lat lon) (requests w) = Response status json →
  200 ≤ status < 300 →
  is_Some (json !! "State") →
  is_Some (json !! "County") →
  is_Some (json !! "Block") →
  pipe.get_fips E (S fuel) lat lon scope w
  = Some (Ok (if scope <? 1 then delete "State" (delete "Block" json)
              else if scope <? 2 then delete "Block" json
              else json),
          {| heap := heap w; requests := S (requests w);
             trace := trace w ++ [EvRequest (pipe.fips_api E lat lon)] |}).
Proof.
  intros Hget Hstatus HState HCounty HBlock.
  unfold pipe.get_fips. cbn [pipe.Backoff].
  unfold pipe.get_fips_body, bind, http_get. rewrite Hget.
  unfold pipe.raise_for_status.
  replace (400 <=? status) with false by (symmetry; apply Z.leb_gt; lia).
  cbn [andb ret].
  rewrite (bool_decide_eq_true_2 _ HBlock).
  destruct (scope <? 2) eqn:H2; cbn [andb].
  - assert (HCounty' : is_Some (delete "Block" json !! "County"))
      by (rewrite lookup_delete_ne by discriminate; exact HCounty).
    rewrite (bool_decide_eq_true_2 _ HCounty').
    destruct (scope <? 1) eqn:H1; cbn [andb]; [| reflexivity].
    rewrite lookup_delete_ne by discriminate.
    destruct HState as [v ->]. reflexivity.
  - replace (scope <? 1) with false
      by (symmetry; apply Z.ltb_ge; apply Z.ltb_ge in H2; lia).
    reflexivity.
Qed.

(** At scope 0 the answer keeps the county and loses the state. *)
Lemma get_fips_trims_by_scope_witness :
  ∃ block w',
    pipe.get_fips up 1 lat0 lon0 0 w0 = Some (Ok block, w')
    ∧ block !! "State" = None
    ∧ block !! "County" = fcc_block !! "County"
    ∧ block !! "Block" = None.
Proof.
  eexists. eexists. split.
  - apply (get_fips_trims_by_scope up 0 lat0 lon0 0 200 fcc_block w0).
    + reflexivity.
    + lia.
    + eexists; reflexivity.
    + eexists; reflexivity.
    + eexists; reflexivity.
  - split; [reflexivity |]. split; reflexivity.
Defined.

(** ** The geocode lookup of parse.py: the retry loop *)

Section retry.
Context (E : env) (fips_request : string).

(** A round that meets a connection error while [attempts] is at most 5
    sleeps [2 ^ attempts] and goes round again. *)
Lemma get_fips_loop_retries (fuel : nat) (attempts : Z) (w : world) :
  requests_get E fips_request (requests w) = ConnectionFails →
  attempts ≤ 5 →
  parse.get_fips_loop E (S fuel) fips_request attempts w
  = parse.get_fips_loop E fuel fips_request (attempts + 1)
      {| heap := heap w; requests := S (requests w);
         trace := trace w ++ [EvRequest fips_request; EvSleep (2 ^ attempts)] |}.
Proof.
  intros Hget Hle. cbn [parse.get_fips_loop].
  unfold bind at 1. unfold http_get. rewrite Hget.
  replace (5 <? attempts) with false by (symmetry; apply Z.ltb_ge; lia).
  unfold bind, sleep, log. cbn [heap requests trace].
  rewrite <- app_assoc. reflexivity.
Qed.

(** A round that meets a connection error once [attempts] is over 5 raises. *)
Lemma get_fips_loop_gives_up (fuel : nat) (attempts : Z) (w : world) :
  requests_get E fips_request (requests w) = ConnectionFails →
  5 < attempts →
  parse.get_fips_loop E (S fuel) fips_request attempts w
  = Some (Err RequestException,
          {| heap := heap w; requests := S (requests w);
             trace := trace w ++ [EvRequest fips_request] |}).
Proof.
  intros Hget Hlt. cbn [parse.get_fips_loop].
  unfold bind, http_get. rewrite Hget.
  replace (5 <? attempts) with true by (symmetry; apply Z.ltb_lt; lia).
  reflexivity.
Qed.

(** Against an endpoint that answers every request with a status outside
    200..299 the loop neither returns nor raises, whatever the fuel. *)
Lemma get_fips_loop_never_ends_on_bad_status (status : Z)
    (json : gmap string value) :
  (∀ n, requests_get E fips_request n = Response status json) →
  ¬ (200 ≤ status < 300) →
  ∀ fuel attempts w, parse.get_fips_loop E fuel fips_request attempts w = None.
Proof.
  intros Hget Hbad. induction fuel as [| fuel IH]; intros attempts w.
  - reflexivity.
  - cbn [parse.get_fips_loop]. unfold bind at 1. unfold http_get. rewrite Hget.
    replace ((200 <=? status) && (status <? 300)) with false.
    + cbn [negb]. unfold bind, sleep, log. apply IH.
    + symmetry. apply andb_false_iff.
      destruct (Z.leb_spec 200 status); [| tauto].
      right. apply Z.ltb_ge. lia.
Qed.

End retry.

(** C6, as the code has it.  Against an endpoint where every request raises a
    connection error, [ElasticParse.get_fips] sends exactly 7 requests, sleeps
    1, 2, 4, 8, 16 and 32 seconds between them, and raises the last error. *)
Theorem get_fips_gives_up_after_seven_requests (E : env) (lat lon : value)
    (fuel : nat) (w : world) :
  let url := parse.fips_skeleton E lat lon in
  (∀ n, requests_get E url n = ConnectionFails) →
  (7 ≤ fuel)%nat →
  parse.get_fips E fuel lat lon w
  = Some (Err RequestException,
          {| heap := heap w; requests := requests w + 7;
             trace := trace w ++
               [EvRequest url; EvSleep 1; EvRequest url; EvSleep 2;
                EvRequest url; EvSleep 4; EvRequest url; EvSleep 8;
                EvRequest url; EvSleep 16; EvRequest url; EvSleep 32;
                EvRequest url] |}).
Proof.
  intros url Hget Hfuel.
  do 7 (destruct fuel as [| fuel]; [lia |]).
  unfold parse.get_fips. fold url.
  do 6 (rewrite get_fips_loop_retries by (first [apply Hget | lia]);
        cbn [heap requests trace Z.add Z.pow Z.pow_pos Pos.iter Z.mul Pos.mul Pos.add Pos.succ]).
  rewrite get_fips_loop_gives_up by (first [apply Hget | lia]).
  cbn [heap requests trace]. rewrite <- !app_assoc. cbn [app].
  do 2 f_equal. f_equal. lia.
Qed.

Lemma get_fips_gives_up_after_seven_requests_witness :
  ∃ w', parse.get_fips down 9 lat0 lon0 w0 = Some (Err RequestException, w')
        ∧ requests w' = 7%nat
        ∧ sleeps (trace w') = [1; 2; 4; 8; 16; 32].
Proof.
  eexists. split.
  - apply (get_fips_gives_up_after_seven_requests down lat0 lon0 9 w0).
    + intros n. reflexivity.
    + lia.
  - split; reflexivity.
Defined.

(** C6, as the claim has it, fails: the always-raising endpoint is asked 7
    times, not 5, with six sleeps, the last of 32; and the endpoint that always
    answers 503 is asked again for ever, so no error surfaces. *)
Lemma get_fips_five_attempts_counterexample :
  (∃ w', parse.get_fips down 7 lat0 lon0 w0 = Some (Err RequestException, w')
         ∧ count_requests (trace w') = 7%nat
         ∧ count_requests (trace w') ≠ 5%nat
         ∧ sleeps (trace w') = [1; 2; 4; 8; 16; 32]
         ∧ sleeps (trace w') ≠ [1; 2; 4; 8; 16])
  ∧ (∀ fuel, parse.get_fips unavailable fuel lat0 lon0 w0 = None).
Proof.
  split.
  - eexists. split; [vm_compute; reflexivity |].
    repeat split; try reflexivity; vm_compute; discriminate.
  - intros fuel. unfold parse.get_fips.
    apply (get_fips_loop_never_ends_on_bad_status unavailable _ 503 ∅).
    + intros n. reflexivity.
    + lia.
Qed.

(** ** The source generator *)

Ltac unfold_next :=
  unfold pipe.next, pipe.start, pipe.resume, pipe.while_loop, pipe.fetchmany,
    pipe.fetched, pipe.counted, pipe.propagate, pipe.close_and_return,
    pipe.at_frame in *.

Section generator.
Context (src : pipe.source) (chunk_size : nat).

(** One [next()]: the count stays or grows by one, the bookkeeping stays
    consistent, and the generator stands at a [yield] exactly when a record
    came out. *)
Lemma next_consistent (k : Z) (st st' : pipe.state) (sig : pipe.signal) :
  pipe.consistent src k st →
  pipe.next src chunk_size st = (sig, st') →
  pipe.consistent src (k + (if pipe.is_Yield sig then 1 else 0)) st'
  ∧ pipe.suspended st' = pipe.is_Yield sig
  ∧ pipe.limit (fst st') = pipe.limit (fst st)
  ∧ (pipe.transfer_count (fst st') = pipe.transfer_count (fst st)
     ∨ pipe.transfer_count (fst st') = pipe.transfer_count (fst st) + 1).
Proof.
  destruct st as [self g]. destruct g as [frame cur q unread fetches].
  unfold pipe.consistent, pipe.suspended. cbn [snd fst pipe.pc pipe.cursor].
  intros Hinv Hnext.
  destruct frame as [| pending |]; unfold_next; cbn in Hnext;
    repeat case_match; simplify_eq/=; intuition (auto; lia).
Qed.

(** A run of [n] pulls keeps the bookkeeping consistent. *)
Lemma pull_consistent (n : nat) :
  ∀ (k : Z) (st : pipe.state),
    pipe.consistent src k st →
    pipe.consistent src (k + pipe.pulled (fst (pipe.pull src chunk_size n st)))
      (snd (pipe.pull src chunk_size n st)).
Proof.
  induction n as [| n IH]; intros k st Hinv.
  - cbn [pipe.pull fst snd]. unfold pipe.pulled. cbn [List.filter length].
    replace (k + Z.of_nat 0) with k by lia. exact Hinv.
  - cbn [pipe.pull].
    destruct (pipe.next src chunk_size st) as [sig st1] eqn:Hnext.
    destruct (next_consistent k st st1 sig Hinv Hnext) as (Hinv1 & _).
    specialize (IH _ _ Hinv1).
    destruct (pipe.pull src chunk_size n st1) as [sigs st2].
    cbn [fst snd] in *. unfold pipe.pulled in *. cbn [List.filter].
    destruct (pipe.is_Yield sig); cbn [length];
      [replace (k + Z.of_nat (S (length (List.filter pipe.is_Yield sigs))))
         with (k + 1 + Z.of_nat (length (List.filter pipe.is_Yield sigs))) by lia
      | replace (k + 0) with k in IH by lia]; exact IH.
Qed.

(** The limit is never written. *)
Lemma next_limit (st : pipe.state) :
  pipe.limit (fst (snd (pipe.next src chunk_size st))) = pipe.limit (fst st).
Proof.
  destruct st as [self g]. destruct g as [frame cur q unread fetches].
  destruct frame; unfold_next; cbn; repeat case_match; simplify_eq/=; reflexivity.
Qed.

Lemma pull_limit (n : nat) :
  ∀ st : pipe.state,
    pipe.limit (fst (snd (pipe.pull src chunk_size n st))) = pipe.limit (fst st).
Proof.
  induction n as [| n IH]; intros st; [reflexivity |].
  cbn [pipe.pull]. pose proof (next_limit st) as Hnext.
  destruct (pipe.next src chunk_size st) as [sig st1].
  specialize (IH st1). destruct (pipe.pull src chunk_size n st1) as [sigs st2].
  cbn [snd] in *. congruence.
Qed.

(** A generator that the constructor of the pipe has just made. *)
Lemma init_consistent (limit : Z) (from_ to : string) :
  pipe.consistent src 0 (pipe.__init__ limit from_ to, pipe.gen_data_source).
Proof.
  unfold pipe.consistent. cbn. repeat split; auto.
Qed.

(** What a [next()] of a live generator leaves of the cursor: closed when it
    stops, as it was when it raises. *)
Lemma next_cursor (k : Z) (st st' : pipe.state) (sig : pipe.signal) :
  pipe.consistent src k st →
  pipe.pc (snd st) ≠ pipe.Finished →
  pipe.next src chunk_size st = (sig, st') →
  (sig = pipe.StopIteration → pipe.cursor (snd st') = pipe.CursorClosed)
  ∧ (∀ e, sig = pipe.Raised e →
       pipe.cursor (snd st')
       = if pipe.connect_fails src then pipe.NoCursor else pipe.CursorOpen)
  ∧ (pipe.is_Yield sig = true → pipe.pc (snd st') ≠ pipe.Finished).
Proof.
  destruct st as [self g]. destruct g as [frame cur q unread fetches].
  unfold pipe.consistent. cbn [snd fst pipe.pc pipe.cursor].
  intros Hinv Hlive Hnext.
  destruct frame as [| pending |]; [| | congruence];
    unfold_next; cbn in Hnext;
    repeat case_match; simplify_eq/=;
    repeat split; try discriminate; try congruence; intuition congruence.
Qed.

(** A finished generator stops at once and changes nothing. *)
Lemma pull_finished (n : nat) (st : pipe.state) :
  pipe.pc (snd st) = pipe.Finished →
  snd (pipe.pull src chunk_size n st) = st.
Proof.
  intros Hpc. induction n as [| n IH]; [reflexivity |].
  cbn [pipe.pull]. unfold pipe.next at 1. rewrite Hpc.
  destruct (pipe.pull src chunk_size n st) as [sigs st2]. exact IH.
Qed.

(** The cursor at the end of a drained run. *)
Lemma drain_cursor (fuel : nat) :
  ∀ (k : Z) (st st' : pipe.state) items last,
    pipe.consistent src k st →
    pipe.pc (snd st) ≠ pipe.Finished →
    pipe.drain src chunk_size fuel st = Some (items, last, st') →
    (last = pipe.StopIteration → pipe.cursor (snd st') = pipe.CursorClosed)
    ∧ (∀ e, last = pipe.Raised e →
         pipe.cursor (snd st')
         = if pipe.connect_fails src then pipe.NoCursor else pipe.CursorOpen).
Proof.
  induction fuel as [| fuel IH]; intros k st st' items last Hinv Hlive Hdrain.
  - discriminate.
  - cbn [pipe.drain] in Hdrain.
    destruct (pipe.next src chunk_size st) as [sig st1] eqn:Hnext.
    destruct (next_consistent k st st1 sig Hinv Hnext) as (Hinv1 & _).
    destruct (next_cursor k st st1 sig Hinv Hlive Hnext) as (Hstop & Hraise & Hyield).
    destruct sig as [item | | e].
    + destruct (pipe.drain src chunk_size fuel st1) as [[[items1 last1] st2] |] eqn:Hrest;
        [| discriminate].
      simplify_eq. eapply IH; eauto.
    + simplify_eq. split; [auto | discriminate].
    + simplify_eq. split; [discriminate | intros e' He'; eapply Hraise; eauto].
Qed.

End generator.

(** *** A database that does not fail *)

Section failure_free.
Context (src : pipe.source) (chunk_size : nat).
Hypothesis fetch_ok : ∀ n, pipe.fetch_fails src n = false.
Hypothesis chunk_pos : (1 ≤ chunk_size)%nat.

Lemma take_chunk_nil (rows : list (gmap string value)) :
  take chunk_size rows = [] → rows = [].
Proof.
  destruct chunk_size as [| c]; [lia |]. destruct rows; [reflexivity | discriminate].
Qed.

Lemma take_chunk_cons (rows pending : list (gmap string value)) item :
  take chunk_size rows = item :: pending →
  rows = item :: pending ++ drop chunk_size rows.
Proof.
  intros H. rewrite <- (take_drop chunk_size rows) at 1. rewrite H. reflexivity.
Qed.

Lemma next_break (self : pipe.Pipe) (g : pipe.generator) pending :
  pipe.pc g = pipe.AtYield pending →
  pipe.limit self ≠ -1 →
  pipe.limit self ≤ pipe.transfer_count self + 1 →
  pipe.next src chunk_size (self, g)
  = pipe.close_and_return (pipe.counted self, g).
Proof.
  intros Hpc Hlim Hle. unfold pipe.next. cbn [snd]. rewrite Hpc.
  unfold pipe.resume, pipe.while_loop.
  cbn [pipe.counted pipe.limit pipe.transfer_count].
  replace (pipe.limit self =? -1) with false by (symmetry; apply Z.eqb_neq; exact Hlim).
  replace (pipe.limit self <=? pipe.transfer_count self + 1) with true
    by (symmetry; apply Z.leb_le; exact Hle).
  replace (pipe.transfer_count self + 1 <? pipe.limit self) with false
    by (symmetry; apply Z.ltb_ge; exact Hle).
  reflexivity.
Qed.

Lemma goes_on_tests (self : pipe.Pipe) :
  pipe.goes_on self →
  negb (pipe.limit self =? -1) && (pipe.limit self <=? pipe.transfer_count self + 1) = false
  ∧ (if pipe.limit self =? -1 then true
     else true && (pipe.transfer_count self + 1 <? pipe.limit self)) = true.
Proof.
  intros [Hunb | Hlt].
  - rewrite Hunb. split; reflexivity.
  - destruct (pipe.limit self =? -1); cbn [negb andb]; [split; reflexivity |].
    split; [apply Z.leb_gt | apply Z.ltb_lt]; lia.
Qed.

Lemma next_pending (self : pipe.Pipe) (g : pipe.generator) item pending :
  pipe.pc g = pipe.AtYield (item :: pending) →
  pipe.goes_on self →
  pipe.next src chunk_size (self, g)
  = (pipe.Yield item, (pipe.counted self, pipe.at_frame (pipe.AtYield pending) g)).
Proof.
  intros Hpc Hon. unfold pipe.next. cbn [snd]. rewrite Hpc.
  unfold pipe.resume. cbn [pipe.counted pipe.limit pipe.transfer_count].
  destruct (goes_on_tests self Hon) as [-> _]. reflexivity.
Qed.

Lemma next_refill (self : pipe.Pipe) (g : pipe.generator) :
  pipe.pc g = pipe.AtYield [] →
  pipe.goes_on self →
  pipe.next src chunk_size (self, g)
  = match take chunk_size (pipe.unread g) with
    | [] => pipe.close_and_return (pipe.counted self, pipe.fetched chunk_size g)
    | item :: pending =>
        (pipe.Yield item,
         (pipe.counted self,
          pipe.at_frame (pipe.AtYield pending) (pipe.fetched chunk_size g)))
    end.
Proof.
  intros Hpc Hon. unfold pipe.next. cbn [snd]. rewrite Hpc.
  unfold pipe.resume, pipe.while_loop.
  cbn [pipe.counted pipe.limit pipe.transfer_count].
  destruct (goes_on_tests self Hon) as [-> ->].
  unfold pipe.fetchmany. rewrite fetch_ok. reflexivity.
Qed.

(** What is due shrinks with every record handed out. *)
Lemma due_break (self : pipe.Pipe) remaining :
  pipe.limit self ≠ -1 →
  pipe.limit self ≤ pipe.transfer_count self + 1 →
  pipe.due self remaining = 0%nat.
Proof.
  intros Hlim Hle. unfold pipe.due.
  replace (pipe.limit self =? -1) with false by (symmetry; apply Z.eqb_neq; exact Hlim).
  lia.
Qed.

Lemma due_goes_on (self : pipe.Pipe) item remaining :
  pipe.goes_on self →
  pipe.due self (item :: remaining) = S (pipe.due (pipe.counted self) remaining).
Proof.
  intros Hon. unfold pipe.due. cbn [pipe.counted pipe.limit pipe.transfer_count length].
  destruct (Z.eqb_spec (pipe.limit self) (-1)) as [Heq | Hne]; [reflexivity |].
  destruct Hon as [Hunb | Hlt]; [congruence | lia].
Qed.

Lemma break_or_goes_on (self : pipe.Pipe) :
  (pipe.limit self ≠ -1 ∧ pipe.limit self ≤ pipe.transfer_count self + 1)
  ∨ pipe.goes_on self.
Proof.
  unfold pipe.goes_on. lia.
Qed.

(** From a [yield] on, the consumer receives the rows left in the chunk and
    on the server, in order, as many as are due, and then the generator
    returns with the cursor closed. *)
Lemma drain_suspended (fuel : nat) :
  ∀ (self : pipe.Pipe) (g : pipe.generator) pending,
    pipe.pc g = pipe.AtYield pending →
    (length (pending ++ pipe.unread g) < fuel)%nat →
    ∃ self' g',
      pipe.drain src chunk_size fuel (self, g)
      = Some (take (pipe.due self (pending ++ pipe.unread g))
                   (pending ++ pipe.unread g),
              pipe.StopIteration, (self', g'))
      ∧ pipe.cursor g' = pipe.CursorClosed
      ∧ pipe.transfer_count self'
        = pipe.transfer_count self + 1
          + Z.of_nat (length (take (pipe.due self (pending ++ pipe.unread g))
                                   (pending ++ pipe.unread g))).
Proof.
  induction fuel as [| fuel IH]; intros self g pending Hpc Hfuel; [lia |].
  cbn [pipe.drain].
  destruct (break_or_goes_on self) as [[Hlim Hle] | Hon].
  - rewrite (next_break self g pending Hpc Hlim Hle).
    rewrite (due_break self _ Hlim Hle). cbn [firstn length].
    unfold pipe.close_and_return. eexists _, _.
    split; [reflexivity |]. split; [reflexivity |]. simpl. lia.
  - destruct pending as [| item pending].
    + rewrite (next_refill self g Hpc Hon). cbn [app] in *.
      destruct (take chunk_size (pipe.unread g)) as [| item pending] eqn:Hchunk.
      * apply take_chunk_nil in Hchunk. rewrite Hchunk. rewrite take_nil.
        unfold pipe.close_and_return. eexists _, _.
        split; [reflexivity |]. split; [reflexivity |]. simpl. lia.
      * apply take_chunk_cons in Hchunk.
        destruct (IH (pipe.counted self)
                     (pipe.at_frame (pipe.AtYield pending) (pipe.fetched chunk_size g))
                     pending)
          as (self' & g' & Hrun & Hcur & Hcnt); [reflexivity | |].
        { cbn [pipe.at_frame pipe.fetched pipe.unread].
          rewrite Hchunk in Hfuel. cbn [length] in Hfuel. lia. }
        cbn [pipe.at_frame pipe.fetched pipe.unread] in Hrun, Hcnt.
        rewrite Hrun.
        remember (pending ++ drop chunk_size (pipe.unread g))%list as rest.
        rewrite Hchunk.
        rewrite (due_goes_on self item _ Hon). cbn [firstn length].
        eexists _, _. split; [reflexivity |]. split; [exact Hcur |].
        rewrite Hcnt. simpl. lia.
    + rewrite (next_pending self g item pending Hpc Hon). cbn [app] in *.
      destruct (IH (pipe.counted self) (pipe.at_frame (pipe.AtYield pending) g) pending)
        as (self' & g' & Hrun & Hcur & Hcnt); [reflexivity | |].
      { cbn [pipe.at_frame pipe.unread]. cbn [length] in Hfuel. lia. }
      cbn [pipe.at_frame pipe.unread] in Hrun, Hcnt.
      rewrite Hrun. rewrite (due_goes_on self item _ Hon). cbn [firstn length].
      eexists _, _. split; [reflexivity |]. split; [exact Hcur |].
      rewrite Hcnt. simpl. lia.
Qed.

(** The first [next()] of a generator whose count starts at 0. *)
Lemma next_created (self : pipe.Pipe) :
  pipe.connect_fails src = false →
  pipe.execute_fails src = false →
  pipe.transfer_count self = 0 →
  pipe.next src chunk_size (self, pipe.gen_data_source)
  = if (pipe.limit self =? -1) || (0 <? pipe.limit self)
    then
      match take chunk_size (pipe.table src) with
      | [] =>
          pipe.close_and_return
            (self, pipe.fetched chunk_size (pipe.opened src self))
      | item :: pending =>
          (pipe.Yield item,
           (self, pipe.at_frame (pipe.AtYield pending)
                    (pipe.fetched chunk_size (pipe.opened src self))))
      end
    else pipe.close_and_return (self, pipe.opened src self).
Proof.
  intros Hconn Hexec Hzero.
  unfold pipe.next, pipe.gen_data_source. cbn [snd pipe.pc].
  unfold pipe.start. rewrite Hconn, Hexec.
  cbn [pipe.pc pipe.cursor pipe.query pipe.unread pipe.fetches].
  fold (pipe.opened src self).
  unfold pipe.while_loop. rewrite Hzero. cbn [andb].
  unfold pipe.fetchmany. rewrite fetch_ok.
  destruct (pipe.limit self =? -1); cbn [orb]; [reflexivity |].
  destruct (0 <? pipe.limit self); reflexivity.
Qed.

(** From the call on, with a count that starts at 0: the first rows of the
    table, as many as the limit allows, and then the cursor is closed. *)
Lemma drain_created (self : pipe.Pipe) (fuel : nat) :
  pipe.connect_fails src = false →
  pipe.execute_fails src = false →
  pipe.transfer_count self = 0 →
  (length (pipe.table src) < fuel)%nat →
  ∃ self' g',
    pipe.drain src chunk_size fuel (self, pipe.gen_data_source)
    = Some (if pipe.limit self =? -1 then pipe.table src
            else take (Z.to_nat (pipe.limit self)) (pipe.table src),
            pipe.StopIteration, (self', g'))
    ∧ pipe.cursor g' = pipe.CursorClosed
    ∧ pipe.transfer_count self'
      = Z.of_nat (length (if pipe.limit self =? -1 then pipe.table src
                          else take (Z.to_nat (pipe.limit self)) (pipe.table src))).
Proof.
  intros Hconn Hexec Hzero Hfuel.
  destruct fuel as [| fuel]; [lia |]. cbn [pipe.drain].
  rewrite (next_created self Hconn Hexec Hzero).
  destruct (Z.eqb_spec (pipe.limit self) (-1)) as [Hunb | Hne]; cbn [orb].
  - (* no limit: the whole table *)
    destruct (take chunk_size (pipe.table src)) as [| item pending] eqn:Hchunk.
    + apply take_chunk_nil in Hchunk. rewrite Hchunk.
      unfold pipe.close_and_return. eexists _, _.
      split; [reflexivity |]. split; [reflexivity |]. simpl. lia.
    + apply take_chunk_cons in Hchunk.
      destruct (drain_suspended fuel self
                  (pipe.at_frame (pipe.AtYield pending)
                     (pipe.fetched chunk_size (pipe.opened src self)))
                  pending)
        as (self' & g' & Hrun & Hcur & Hcnt); [reflexivity | |].
      { cbn [pipe.at_frame pipe.fetched pipe.opened pipe.unread].
        rewrite Hchunk in Hfuel. cbn [length] in Hfuel. lia. }
      cbn [pipe.at_frame pipe.fetched pipe.opened pipe.unread] in Hrun, Hcnt.
      rewrite Hrun.
      remember (pending ++ drop chunk_size (pipe.table src))%list as rest.
      rewrite Hchunk. unfold pipe.due in *.
      replace (pipe.limit self =? -1) with true in *
        by (symmetry; apply Z.eqb_eq; exact Hunb).
      rewrite firstn_all in *. eexists _, _.
      split; [reflexivity |]. split; [exact Hcur |]. rewrite Hcnt. simpl. lia.
  - destruct (Z.ltb_spec 0 (pipe.limit self)) as [Hpos | Hle].
    + (* a limit above 0 *)
      destruct (take chunk_size (pipe.table src)) as [| item pending] eqn:Hchunk.
      * apply take_chunk_nil in Hchunk. rewrite Hchunk. rewrite take_nil.
        unfold pipe.close_and_return. eexists _, _.
        split; [reflexivity |]. split; [reflexivity |]. simpl. lia.
      * apply take_chunk_cons in Hchunk.
        destruct (drain_suspended fuel self
                    (pipe.at_frame (pipe.AtYield pending)
                       (pipe.fetched chunk_size (pipe.opened src self)))
                    pending)
          as (self' & g' & Hrun & Hcur & Hcnt); [reflexivity | |].
        { cbn [pipe.at_frame pipe.fetched pipe.opened pipe.unread].
          rewrite Hchunk in Hfuel. cbn [length] in Hfuel. lia. }
        cbn [pipe.at_frame pipe.fetched pipe.opened pipe.unread] in Hrun, Hcnt.
        rewrite Hrun.
        remember (pending ++ drop chunk_size (pipe.table src))%list as rest.
        rewrite Hchunk. unfold pipe.due in *. rewrite Hzero in *.
        replace (pipe.limit self =? -1) with false in *
          by (symmetry; apply Z.eqb_neq; exact Hne).
        replace (Z.to_nat (pipe.limit self))
          with (S (Z.to_nat (pipe.limit self - 0 - 1))) by lia.
        cbn [firstn]. eexists _, _.
        split; [reflexivity |]. split; [exact Hcur |]. rewrite Hcnt. simpl. lia.
    + (* a limit of 0 or below: nothing is fetched *)
      replace (Z.to_nat (pipe.limit self)) with 0%nat by lia.
      unfold pipe.close_and_return. eexists _, _.
      split; [reflexivity |]. split; [reflexivity |]. simpl. lia.
Qed.

End failure_free.

(** C5.  From a database that does not fail, fetched in chunks of at least one
    row, a pipeline with the limit [n ≥ 0] hands out the first [min n m] of the
    [m] rows, in order (so it stops in the middle of a chunk when the limit
    falls there), and a pipeline without limit ([-1]) hands out all [m]; the
    consumer that asks once more is told to stop, and the cursor is closed.
    Any fuel above [m] is enough for the run to end. *)
Theorem gen_data_source_stops_at_limit (src : pipe.source) (chunk_size : nat)
    (limit : Z) (from_ to : string) (fuel : nat) :
  pipe.connect_fails src = false →
  pipe.execute_fails src = false →
  (∀ n, pipe.fetch_fails src n = false) →
  (1 ≤ chunk_size)%nat →
  0 ≤ limit ∨ limit = -1 →
  (length (pipe.table src) < fuel)%nat →
  ∃ items self' g',
    pipe.drain src chunk_size fuel
      (pipe.__init__ limit from_ to, pipe.gen_data_source)
    = Some (items, pipe.StopIteration, (self', g'))
    ∧ items = (if limit =? -1 then pipe.table src
               else take (Z.to_nat limit) (pipe.table src))
    ∧ Z.of_nat (length items)
      = (if limit =? -1 then Z.of_nat (length (pipe.table src))
         else Z.min limit (Z.of_nat (length (pipe.table src))))
    ∧ pipe.cursor g' = pipe.CursorClosed.
Proof.
  intros Hconn Hexec Hfetch Hchunk Hlimit Hfuel.
  destruct (drain_created src chunk_size Hfetch Hchunk
              (pipe.__init__ limit from_ to) fuel Hconn Hexec eq_refl Hfuel)
    as (self' & g' & Hrun & Hcur & _).
  cbn [pipe.__init__ pipe.limit] in Hrun.
  eexists _, self', g'. split; [exact Hrun |]. split; [reflexivity |].
  split; [| exact Hcur].
  destruct (Z.eqb_spec limit (-1)) as [Hunb | Hne]; [reflexivity |].
  rewrite length_take. lia.
Qed.

(** Three rows, limit 2, chunks of 500: the run stops inside the first chunk
    after two records, and the cursor is closed.  The same rows in chunks of
    2 and no limit: all three, and the cursor is closed. *)
Lemma gen_data_source_stops_at_limit_witness :
  (∃ self' g',
     pipe.drain db3 500 4 (pipe.__init__ 2 "" "", pipe.gen_data_source)
     = Some ([row0; row1], pipe.StopIteration, (self', g'))
     ∧ pipe.cursor g' = pipe.CursorClosed)
  ∧ (∃ self' g',
       pipe.drain db3 2 4 (pipe.__init__ (-1) "" "", pipe.gen_data_source)
       = Some ([row0; row1; row2], pipe.StopIteration, (self', g'))
       ∧ pipe.cursor g' = pipe.CursorClosed).
Proof.
  split.
  - destruct (gen_data_source_stops_at_limit db3 500 2 "" "" 4)
      as (items & self' & g' & Hrun & Hitems & _ & Hcur);
      [reflexivity | reflexivity | intros n; reflexivity | lia | lia | simpl; lia |].
    exists self', g'. split; [| exact Hcur]. rewrite Hrun, Hitems. reflexivity.
  - destruct (gen_data_source_stops_at_limit db3 2 (-1) "" "" 4)
      as (items & self' & g' & Hrun & Hitems & _ & Hcur);
      [reflexivity | reflexivity | intros n; reflexivity | lia | lia | simpl; lia |].
    exists self', g'. split; [| exact Hcur]. rewrite Hrun, Hitems. reflexivity.
Defined.

(** C7, as the code has it.  Through any run of pulls the count never goes
    down, and one more pull leaves it or adds one; it never exceeds a limit
    that is not negative; and it is the number of records pulled so far less
    the one the consumer holds while the generator stands at a [yield]: the
    body counts a record when it is resumed, after the consumer has had it. *)
Theorem transfer_count_lags_one_behind (src : pipe.source) (chunk_size : nat)
    (limit : Z) (from_ to : string) (n : nat) :
  let run := pipe.pull src chunk_size n
               (pipe.__init__ limit from_ to, pipe.gen_data_source) in
  let st := snd run in
  let st' := snd (pipe.next src chunk_size st) in
  (pipe.transfer_count (fst st') = pipe.transfer_count (fst st)
   ∨ pipe.transfer_count (fst st') = pipe.transfer_count (fst st) + 1)
  ∧ (0 ≤ limit → pipe.transfer_count (fst st) ≤ limit)
  ∧ pipe.transfer_count (fst st)
    = pipe.pulled (fst run) - (if pipe.suspended st then 1 else 0).
Proof.
  intros run st st'.
  pose proof (pull_consistent src chunk_size n 0 _
                (init_consistent src limit from_ to)) as Hinv.
  fold run in Hinv. fold st in Hinv.
  assert (Hlimit : pipe.limit (fst st) = limit)
    by (subst st run; rewrite pull_limit; reflexivity).
  destruct (pipe.next src chunk_size st) as [sig st1] eqn:Hnext.
  destruct (next_consistent src chunk_size _ st st1 sig Hinv Hnext)
    as (_ & _ & _ & Hstep).
  subst st'. cbn [snd]. split; [exact Hstep |].
  destruct st as [self g]. unfold pipe.consistent in Hinv.
  unfold pipe.suspended. cbn [fst snd] in *.
  destruct Hinv as [Hbound Hframe]. rewrite Hlimit in Hbound.
  split; [exact Hbound |].
  destruct (pipe.pc g); lia.
Qed.

(** C7, as the claim has it, fails: after the first pull from three rows one
    record has been pulled and the count is still 0. *)
Lemma transfer_count_counterexample :
  let run := pipe.pull db3 500 1 (pipe.__init__ (-1) "" "", pipe.gen_data_source) in
  pipe.pulled (fst run) = 1
  ∧ pipe.transfer_count (fst (snd run)) = 0
  ∧ pipe.transfer_count (fst (snd run)) ≠ pipe.pulled (fst run).
Proof.
  vm_compute. repeat split; discriminate.
Qed.

(** C4, as the code has it.  The cursor is closed by the last statement of
    the body and nowhere else.  A run that the consumer drains ends with the
    cursor closed when the generator returns (the query is exhausted, or the
    limit is reached and the consumer asks once more), and a database that
    does not fail always lets it return; when execute or a fetch raises, the
    run ends with the cursor open (with no cursor when the connection itself
    failed); and when the consumer gives the generator up at a [yield] the
    cursor is open and stays open whatever is asked of the generator later. *)
Theorem cursor_closed_only_on_return (src : pipe.source) (chunk_size : nat)
    (limit : Z) (from_ to : string) :
  let st0 := (pipe.__init__ limit from_ to, pipe.gen_data_source) in
  (∀ fuel items last st',
     pipe.drain src chunk_size fuel st0 = Some (items, last, st') →
     (last = pipe.StopIteration → pipe.cursor (snd st') = pipe.CursorClosed)
     ∧ (∀ e, last = pipe.Raised e →
          pipe.cursor (snd st')
          = if pipe.connect_fails src then pipe.NoCursor else pipe.CursorOpen))
  ∧ (pipe.connect_fails src = false →
     pipe.execute_fails src = false →
     (∀ n, pipe.fetch_fails src n = false) →
     (1 ≤ chunk_size)%nat →
     ∀ fuel, (length (pipe.table src) < fuel)%nat →
       ∃ items st',
         pipe.drain src chunk_size fuel st0 = Some (items, pipe.StopIteration, st')
         ∧ pipe.cursor (snd st') = pipe.CursorClosed)
  ∧ (∀ n,
       let st := snd (pipe.pull src chunk_size n st0) in
       pipe.suspended st = true →
       pipe.cursor (snd (pipe.close st)) = pipe.CursorOpen
       ∧ ∀ m, pipe.cursor (snd (snd (pipe.pull src chunk_size m (pipe.close st))))
              = pipe.CursorOpen).
Proof.
  intros st0. split; [| split].
  - intros fuel items last st' Hrun.
    apply (drain_cursor src chunk_size fuel 0 st0 st' items last);
      [apply init_consistent | discriminate | exact Hrun].
  - intros Hconn Hexec Hfetch Hchunk fuel Hfuel.
    destruct (drain_created src chunk_size Hfetch Hchunk
                (pipe.__init__ limit from_ to) fuel Hconn Hexec eq_refl Hfuel)
      as (self' & g' & Hrun & Hcur & _).
    eexists _, (self', g'). split; [exact Hrun | exact Hcur].
  - intros n st Hsusp.
    pose proof (pull_consistent src chunk_size n 0 _
                  (init_consistent src limit from_ to)) as Hinv.
    fold st0 in Hinv. fold st in Hinv.
    destruct st as [self g]. unfold pipe.suspended in Hsusp.
    unfold pipe.consistent in Hinv. cbn [snd] in *.
    destruct (pipe.pc g) eqn:Hpc; try discriminate.
    destruct Hinv as (_ & _ & _ & Hopen & _).
    assert (Hclosed : pipe.cursor (snd (pipe.close (self, g))) = pipe.CursorOpen)
      by exact Hopen.
    split; [exact Hclosed |].
    intros m. rewrite pull_finished; [exact Hclosed | reflexivity].
Qed.

(** Three rows and limit 2: the drained run ends with the cursor closed.
    The same run given up after the first record leaves it open. *)
Lemma cursor_closed_only_on_return_witness :
  (∃ items st',
     pipe.drain db3 500 4 (pipe.__init__ 2 "" "", pipe.gen_data_source)
     = Some (items, pipe.StopIteration, st')
     ∧ pipe.cursor (snd st') = pipe.CursorClosed)
  ∧ pipe.cursor (snd (pipe.close (snd (pipe.pull db3 500 1
                        (pipe.__init__ 2 "" "", pipe.gen_data_source)))))
    = pipe.CursorOpen.
Proof.
  destruct (cursor_closed_only_on_return db3 500 2 "" "") as (_ & Hreturn & Hgiven_up).
  split.
  - apply Hreturn; [reflexivity | reflexivity | intros n; reflexivity | lia | simpl; lia].
  - apply (Hgiven_up 1%nat). reflexivity.
Defined.

(** C4, as the claim has it, fails: when the second fetch raises, the run
    ends with the cursor open; and a consumer that drops the generator after
    the first record leaves the cursor open. *)
Lemma cursor_left_open_counterexample :
  pipe.observed
    (pipe.drain db3_broken 2 5 (pipe.__init__ (-1) "" "", pipe.gen_data_source))
  = Some (2%nat, pipe.Raised DatabaseError, pipe.CursorOpen)
  ∧ pipe.cursor (snd (pipe.close (snd (pipe.pull db3 500 1
                        (pipe.__init__ (-1) "" "", pipe.gen_data_source)))))
    = pipe.CursorOpen.
Proof.
  split; vm_compute; reflexivity.
Qed.

(** ** The action of parse.py: [entry_to_act] *)

(** The lookup leaves the heap as it is. *)
Lemma get_fips_loop_heap (E : env) (fips_request : string) (fuel : nat) :
  ∀ attempts w r w',
    parse.get_fips_loop E fuel fips_request attempts w = Some (r, w') →
    heap w' = heap w.
Proof.
  induction fuel as [| fuel IH]; intros attempts w r w' Hrun; [discriminate |].
  cbn [parse.get_fips_loop] in Hrun. unfold bind at 1 in Hrun.
  unfold http_get in Hrun.
  destruct (requests_get E fips_request (requests w)) as [| status json].
  - destruct (5 <? attempts).
    + unfold raise in Hrun. simplify_eq. reflexivity.
    + unfold bind, sleep, log in Hrun. apply IH in Hrun. exact Hrun.
  - destruct (negb ((200 <=? status) && (status <? 300))).
    + unfold bind, sleep, log in Hrun. apply IH in Hrun. exact Hrun.
    + unfold ret in Hrun. simplify_eq. reflexivity.
Qed.

Section document.
Context (h : gmap loc (gmap string value)) (doc : loc).

(** A world whose heap is [h] with the document [d] at [doc]. *)
Local Abbreviation W d r t :=
  {| heap := <[doc := d]> h; requests := r; trace := t |}.

Lemma read_at d r t : dict_read doc (W d r t) = Some (Ok d, W d r t).
Proof. unfold dict_read. cbn [heap]. rewrite lookup_insert_eq. reflexivity. Qed.

Lemma read_other l e d r t :
  l ≠ doc → h !! l = Some e → dict_read l (W d r t) = Some (Ok e, W d r t).
Proof.
  intros Hne Hl. unfold dict_read. cbn [heap].
  rewrite lookup_insert_ne by congruence. rewrite Hl. reflexivity.
Qed.

Lemma write_at d' d r t : dict_write doc d' (W d r t) = Some (Ok tt, W d' r t).
Proof. unfold dict_write. cbn [heap requests trace]. rewrite insert_insert_eq. reflexivity. Qed.

Lemma setitem_at key v d r t :
  dict_setitem doc key v (W d r t) = Some (Ok tt, W (<[key := v]> d) r t).
Proof. unfold dict_setitem, bind. rewrite read_at. apply write_at. Qed.

Lemma getitem_at key d r t :
  dict_getitem doc key (W d r t)
  = match d !! key with
    | Some v => Some (Ok v, W d r t)
    | None => Some (Err (KeyError key), W d r t)
    end.
Proof. unfold dict_getitem, bind. rewrite read_at. destruct (d !! key); reflexivity. Qed.

(** if key in doc: x = doc.pop(key), with x = None before *)
Lemma pop_if_present key d r t :
  bind (dict_contains doc key)
       (λ has : bool, if has then dict_pop doc key else ret VNone) (W d r t)
  = Some (Ok (dict_get d key), W (delete key d) r t).
Proof.
  unfold bind at 1. unfold dict_contains, bind. rewrite read_at. unfold ret at 1.
  unfold dict_get, dict_pop, bind.
  destruct (d !! key) as [v |] eqn:Hkey.
  - rewrite bool_decide_eq_true_2 by eauto.
    rewrite read_at, Hkey, write_at. reflexivity.
  - rewrite bool_decide_eq_false_2 by (intros [? ?]; discriminate).
    rewrite delete_id by exact Hkey. reflexivity.
Qed.

(** doc.pop(key, None) *)
Lemma pop_default_at key d r t :
  dict_pop_default doc key VNone (W d r t)
  = Some (Ok (dict_get d key), W (delete key d) r t).
Proof.
  unfold dict_pop_default, dict_get, bind. rewrite read_at.
  destruct (d !! key) as [v |] eqn:Hkey.
  - rewrite write_at. reflexivity.
  - rewrite delete_id by exact Hkey. reflexivity.
Qed.

(** if key in doc: _ = doc.pop(key) *)
Lemma drop_if_present key d r t :
  bind (dict_contains doc key)
       (λ has : bool, if has then bind (dict_pop doc key) (λ _, ret tt) else ret tt)
       (W d r t)
  = Some (Ok tt, W (delete key d) r t).
Proof.
  unfold bind at 1. unfold dict_contains, bind. rewrite read_at. unfold ret at 1.
  unfold dict_pop, bind.
  destruct (d !! key) as [v |] eqn:Hkey.
  - rewrite bool_decide_eq_true_2 by eauto.
    rewrite read_at, Hkey, write_at. reflexivity.
  - rewrite bool_decide_eq_false_2 by (intros [? ?]; discriminate).
    rewrite delete_id by exact Hkey. reflexivity.
Qed.

(** The lookup, from a world of this shape, ends in a world of this shape. *)
Lemma get_fips_at (E : env) (fuel : nat) (lat lon : value) d r t x w' :
  parse.get_fips E fuel lat lon (W d r t) = Some (x, w') →
  w' = W d (requests w') (trace w').
Proof.
  intros Hrun. apply get_fips_loop_heap in Hrun. destruct w' as [h' r' t'].
  cbn [heap requests trace] in *. subst h'. reflexivity.
Qed.

End document.

Lemma bind_ok {A B} (c : M A) (k : A → M B) (w w1 : world) (a : A) :
  c w = Some (Ok a, w1) → bind c k w = k a w1.
Proof. intros H. unfold bind. rewrite H. reflexivity. Qed.

Lemma bind_inv {A B} (c : M A) (k : A → M B) (w w' : world) (r : result B) :
  bind c k w = Some (r, w') →
  (∃ a w1, c w = Some (Ok a, w1) ∧ k a w1 = Some (r, w'))
  ∨ (∃ e, c w = Some (Err e, w') ∧ r = Err e).
Proof.
  unfold bind. destruct (c w) as [[[a | e] w1] |]; intros H.
  - left. eauto.
  - right. simplify_eq. eauto.
  - discriminate.
Qed.

(** The geometry that [entry_to_act] attaches. *)
Lemma geometry_block_at (E : env) (fuel : nat) (h : gmap loc (gmap string value))
    (doc : loc) (lat lon : value) (d : gmap string value) r t x w1 :
  (if is_not_None lat && is_not_None lon
   then
     bind (dict_setitem doc "geometry"
             (VDict {[ "coordinates" := VList [lon; lat]; "type" := VStr "Point" ]}))
          (λ _, bind (parse.get_fips E fuel lat lon)
                     (λ fips, dict_setitem doc "fips" (VDict fips)))
   else ret tt) {| heap := <[doc := d]> h; requests := r; trace := t |}
  = Some (x, w1) →
  ∃ d1, w1 = {| heap := <[doc := d1]> h; requests := requests w1; trace := trace w1 |}
        ∧ (x = Ok tt →
           (∀ key, key ≠ "geometry" → key ≠ "fips" → d1 !! key = d !! key)
           ∧ d1 !! "geometry"
             = (if is_not_None lat && is_not_None lon
                then Some (VDict {[ "coordinates" := VList [lon; lat];
                                    "type" := VStr "Point" ]})
                else d !! "geometry")
           ∧ (if is_not_None lat && is_not_None lon
              then ∃ fips, d1 !! "fips" = Some (VDict fips)
              else d1 !! "fips" = d !! "fips")).
Proof.
  destruct (is_not_None lat && is_not_None lon); intros Hrun.
  - rewrite (bind_ok _ _ _ _ _ (setitem_at h doc _ _ _ _ _)) in Hrun.
    apply bind_inv in Hrun as [(fips & w2 & Hfips & Hset) | (ex & Hfips & ->)].
    + pose proof (get_fips_at _ _ _ _ _ _ _ _ _ _ _ Hfips) as Hw2.
      rewrite Hw2 in Hset. rewrite setitem_at in Hset. simplify_eq.
      eexists. split; [reflexivity |]. intros _. split; [| split].
      * intros key Hg Hf. rewrite !lookup_insert_ne by congruence. reflexivity.
      * rewrite lookup_insert_ne by discriminate. apply lookup_insert_eq.
      * eexists. apply lookup_insert_eq.
    + pose proof (get_fips_at _ _ _ _ _ _ _ _ _ _ _ Hfips) as Hw2.
      eexists. split; [exact Hw2 | discriminate].
  - unfold ret in Hrun. simplify_eq.
    eexists. split; [reflexivity |]. intros _. auto.
Qed.

(** if isinstance(doc.get('updated'), str): doc['updated'] = strptime(...) *)
Lemma updated_block_at (E : env) (h : gmap loc (gmap string value))
    (doc : loc) (d : gmap string value) r t x w1 :
  (if is_str (dict_get d "updated")
   then
     bind (dict_getitem doc "updated")
          (λ updated, bind (parse.strptime E updated "%B %d, %Y")
                           (λ stamp, dict_setitem doc "updated" stamp))
   else ret tt) {| heap := <[doc := d]> h; requests := r; trace := t |}
  = Some (x, w1) →
  ∃ d1, w1 = {| heap := <[doc := d1]> h; requests := r; trace := t |}
        ∧ ∀ key, key ≠ "updated" → d1 !! key = d !! key.
Proof.
  destruct (is_str (dict_get d "updated")); intros Hrun.
  - apply bind_inv in Hrun as [(v & w2 & Hget & Hrun) | (ex & Hget & ->)];
      rewrite getitem_at in Hget; destruct (d !! "updated"); simplify_eq;
      [| eexists; split; [reflexivity | reflexivity]].
    apply bind_inv in Hrun as [(stamp & w2 & Hstamp & Hrun) | (ex & Hstamp & ->)];
      unfold parse.strptime, ret, raise in Hstamp;
      repeat case_match; simplify_eq;
      try (eexists; split; [reflexivity | reflexivity]).
    rewrite setitem_at in Hrun. simplify_eq.
    eexists. split; [reflexivity |].
    intros key Hkey. rewrite lookup_insert_ne by congruence. reflexivity.
  - unfold ret in Hrun. simplify_eq. eexists. split; reflexivity.
Qed.

(** What [entry_to_act] leaves behind: the heap it was given with one more
    object, the document, at a new place; and, when it returns an action, the
    identifier of the entry as it was given, the document under the payload
    key, and in the document the geometry and the region codes of an entry
    with both coordinates, with the fields lat, lon, state and page gone. *)
Lemma entry_to_act_spec (E : env) (fuel : nat) (self : parse.ElasticParse)
    (entry : loc) (e : gmap string value) (w : world) r w' :
  heap w !! entry = Some e →
  parse.entry_to_act E fuel self entry w = Some (r, w') →
  let doc := fresh (dom (heap w)) in
  let lat := dict_get e "lat" in
  let lon := dict_get e "lon" in
  let geo := is_not_None lat && is_not_None lon in
  ∃ d, heap w' = <[doc := d]> (heap w)
       ∧ ∀ act, r = Ok act →
           (∃ id, parse.gen_id E e = Ok id
                  ∧ act = match parse.body_name self with
                          | Some key =>
                              <[ key := VRef doc ]>
                                (<[ "_id" := VStr id ]>
                                   (<[ "_type" := VStr parse._type ]>
                                      {[ "_index" := VStr (parse._index E) ]}))
                          | None =>
                              <[ "_id" := VStr id ]>
                                (<[ "_type" := VStr parse._type ]>
                                   {[ "_index" := VStr (parse._index E) ]})
                          end)
           ∧ d !! "geometry"
             = (if geo
                then Some (VDict {[ "coordinates" := VList [lon; lat];
                                    "type" := VStr "Point" ]})
                else e !! "geometry")
           ∧ (if geo then ∃ fips, d !! "fips" = Some (VDict fips)
              else d !! "fips" = e !! "fips")
           ∧ d !! "lat" = None ∧ d !! "lon" = None
           ∧ d !! "state" = None ∧ d !! "page" = None.
Proof.
  intros Hentry Hrun doc lat lon geo.
  assert (Hfresh : heap w !! doc = None)
    by (apply not_elem_of_dom; apply is_fresh).
  assert (Hne : entry ≠ doc) by congruence.
  unfold parse.entry_to_act in Hrun.
  rewrite (bind_ok _ _ w {| heap := <[doc := e]> (heap w); requests := requests w;
                             trace := trace w |} doc) in Hrun.
  2: { unfold dict_copy, bind, dict_read. rewrite Hentry. reflexivity. }
  rewrite (bind_ok _ _ _ _ _ (pop_if_present (heap w) doc "lat" e _ _)) in Hrun.
  rewrite (bind_ok _ _ _ _ _ (pop_if_present (heap w) doc "lon" _ _ _)) in Hrun.
  replace (dict_get (delete "lat" e) "lon") with lon in Hrun
    by (unfold lon, dict_get; rewrite lookup_delete_ne by discriminate; reflexivity).
  fold lat in Hrun.
  (* the geometry *)
  apply bind_inv in Hrun as [([] & w1 & Hgeo & Hrun) | (ex & Hgeo & ->)];
    apply geometry_block_at in Hgeo as (d1 & Hw1 & Hd1);
    [| exists d1; split; [rewrite Hw1; reflexivity | discriminate]].
  destruct (Hd1 eq_refl) as (Hkeep1 & Hgeom1 & Hfips1). clear Hd1.
  fold geo in Hgeom1, Hfips1.
  rewrite Hw1 in Hrun. clear Hw1.
  generalize dependent (requests w1). generalize dependent (trace w1).
  intros t1 r1 Hrun. clear w1.
  (* the state, renamed *)
  rewrite (bind_ok _ _ _ _ _ (pop_default_at (heap w) doc "state" _ _ _)) in Hrun.
  rewrite (bind_ok _ _ _ _ _ (setitem_at (heap w) doc _ _ _ _ _)) in Hrun.
  rewrite (bind_ok _ _ _ _ _ (read_at (heap w) doc _ _ _)) in Hrun.
  (* the date of the update *)
  apply bind_inv in Hrun as [([] & w3 & Hupd & Hrun) | (ex & Hupd & ->)];
    apply updated_block_at in Hupd as (d3 & -> & Hkeep3);
    [| exists d3; split; [reflexivity | discriminate]].
  (* the page *)
  rewrite (bind_ok _ _ _ _ _ (drop_if_present (heap w) doc "page" _ _ _)) in Hrun.
  (* the access time *)
  apply bind_inv in Hrun as [(access_time & w4 & Hget & Hrun) | (ex & Hget & ->)];
    rewrite getitem_at in Hget; destruct (delete "page" d3 !! "access_time");
    simplify_eq; [| eexists; split; [reflexivity | discriminate]].
  apply bind_inv in Hrun as [(stamp & w4 & Hstamp & Hrun) | (ex & Hstamp & ->)];
    unfold parse.strptime, ret, raise in Hstamp;
    destruct access_time as [| | | | text | | | |]; simplify_eq;
    try (eexists; split; [reflexivity | discriminate]);
    destruct (strptime_timestamp E text "%Y-%m-%d %H:%M:%S") as [q |]; simplify_eq;
    try (eexists; split; [reflexivity | discriminate]).
  rewrite (bind_ok _ _ _ _ _ (setitem_at (heap w) doc _ _ _ _ _)) in Hrun.
  (* the identifier, from the entry *)
  rewrite (bind_ok _ _ _ _ _ (read_other (heap w) doc entry e _ _ _ Hne Hentry)) in Hrun.
  apply bind_inv in Hrun as [(id & w5 & Hid & Hrun) | (ex & Hid & ->)];
    unfold lift, ret, raise in Hid; destruct (parse.gen_id E e) as [id' | ex'];
    simplify_eq; [| eexists; split; [reflexivity | discriminate]].
  unfold ret in Hrun. simplify_eq.
  eexists. split; [reflexivity |].
  intros act Hact. simplify_eq.
  split; [eexists; split; [reflexivity | destruct (parse.body_name self); reflexivity] |].
  assert (Hfinal : ∀ key, key ≠ "access_time" → key ≠ "page" → key ≠ "updated" →
            key ≠ "province/state" → key ≠ "state" → key ≠ "geometry" → key ≠ "fips" →
            (<["access_time" := VFloat q]> (delete "page" d3)) !! key
            = delete "lon" (delete "lat" e) !! key).
  { intros key ? ? ? ? ? ? ?.
    rewrite lookup_insert_ne, lookup_delete_ne by congruence.
    rewrite Hkeep3 by congruence.
    rewrite lookup_insert_ne, lookup_delete_ne by congruence.
    apply Hkeep1; congruence. }
  assert (Hthrough : ∀ key, key ≠ "access_time" → key ≠ "page" → key ≠ "updated" →
            key ≠ "province/state" → key ≠ "state" →
            (<["access_time" := VFloat q]> (delete "page" d3)) !! key = d1 !! key).
  { intros key ? ? ? ? ?.
    rewrite lookup_insert_ne, lookup_delete_ne by congruence.
    rewrite Hkeep3 by congruence.
    rewrite lookup_insert_ne, lookup_delete_ne by congruence. reflexivity. }
  split; [rewrite Hthrough by discriminate; rewrite Hgeom1;
          destruct geo; [reflexivity |];
          rewrite !lookup_delete_ne by discriminate; reflexivity |].
  split; [destruct geo;
          [destruct Hfips1 as [fips Hfips1]; exists fips;
           rewrite Hthrough by discriminate; exact Hfips1
          | rewrite Hthrough by discriminate; rewrite Hfips1;
            rewrite !lookup_delete_ne by discriminate; reflexivity] |].
  split; [rewrite Hfinal by discriminate;
          rewrite lookup_delete_ne by discriminate; apply lookup_delete_eq |].
  split; [rewrite Hfinal by discriminate; apply lookup_delete_eq |].
  split.
  - rewrite lookup_insert_ne, lookup_delete_ne by discriminate.
    rewrite Hkeep3 by discriminate.
    rewrite lookup_insert_ne by discriminate. apply lookup_delete_eq.
  - rewrite lookup_insert_ne by discriminate. apply lookup_delete_eq.
Qed.

(** The lookup of parse.py, answered 2xx at the first attempt. *)
Lemma get_fips_answered (E : env) (fuel : nat) (lat lon : value)
    (status : Z) (json : gmap string value) (w : world) :
  requests_get E (parse.fips_skeleton E lat lon) (requests w) = Response status json →
  200 ≤ status < 300 →
  parse.get_fips E (S fuel) lat lon w
  = Some (Ok json,
          {| heap := heap w; requests := S (requests w);
             trace := trace w ++ [EvRequest (parse.fips_skeleton E lat lon)] |}).
Proof.
  intros Hget Hstatus. unfold parse.get_fips. cbn [parse.get_fips_loop].
  unfold bind, http_get. rewrite Hget.
  replace (200 <=? status) with true by (symmetry; apply Z.leb_le; lia).
  replace (status <? 300) with true by (symmetry; apply Z.ltb_lt; lia).
  reflexivity.
Qed.

(** [entry_to_act] returns an action for an entry whose access time is in
    the expected format, whose update date is no string, whose identifier
    can be computed, and whose coordinates the lookup resolves at once. *)
Lemma entry_to_act_returns (E : env) (fuel : nat) (self : parse.ElasticParse)
    (entry : loc) (e : gmap string value) (w : world)
    (text : string) (stamp : Q) (id : string)
    (status : Z) (json : gmap string value) :
  heap w !! entry = Some e →
  e !! "access_time" = Some (VStr text) →
  strptime_timestamp E text "%Y-%m-%d %H:%M:%S" = Some stamp →
  is_str (dict_get e "updated") = false →
  parse.gen_id E e = Ok id →
  requests_get E (parse.fips_skeleton E (dict_get e "lat") (dict_get e "lon"))
    (requests w) = Response status json →
  200 ≤ status < 300 →
  ∃ act w', parse.entry_to_act E (S fuel) self entry w = Some (Ok act, w').
Proof.
  intros Hentry Htime Hstamp Hupd Hid Hget Hstatus.
  set (doc := fresh (dom (heap w))).
  assert (Hfresh : heap w !! doc = None)
    by (apply not_elem_of_dom; apply is_fresh).
  assert (Hne : entry ≠ doc) by congruence.
  unfold parse.entry_to_act.
  rewrite (bind_ok _ _ w {| heap := <[doc := e]> (heap w); requests := requests w;
                             trace := trace w |} doc).
  2: { unfold dict_copy, bind, dict_read. rewrite Hentry. reflexivity. }
  rewrite (bind_ok _ _ _ _ _ (pop_if_present (heap w) doc "lat" e _ _)).
  rewrite (bind_ok _ _ _ _ _ (pop_if_present (heap w) doc "lon" _ _ _)).
  replace (dict_get (delete "lat" e) "lon") with (dict_get e "lon")
    by (unfold dict_get; rewrite lookup_delete_ne by discriminate; reflexivity).
  set (d0 := delete "lon" (delete "lat" e)).
  assert (Hd0 : ∀ key, key ≠ "lat" → key ≠ "lon" → d0 !! key = e !! key)
    by (intros key ? ?; unfold d0; rewrite !lookup_delete_ne by congruence; reflexivity).
  clearbody d0.
  (* the geometry *)
  match goal with
  | |- ∃ act w', bind ?block ?rest ?w0 = _ =>
      assert (Hblock : ∃ d1 r1 t1,
                block w0 = Some (Ok tt, {| heap := <[doc := d1]> (heap w);
                                           requests := r1; trace := t1 |})
                ∧ ∀ key, key ≠ "geometry" → key ≠ "fips" → d1 !! key = d0 !! key)
  end.
  { destruct (is_not_None (dict_get e "lat") && is_not_None (dict_get e "lon")).
    - rewrite (bind_ok _ _ _ _ _ (setitem_at (heap w) doc _ _ _ _ _)).
      rewrite (bind_ok _ _ _ _ _
                 (get_fips_answered E fuel _ _ status json
                    {| heap := _; requests := requests w; trace := _ |}
                    Hget Hstatus)).
      cbn [heap requests trace]. rewrite setitem_at.
      eexists _, _, _. split; [reflexivity |].
      intros key ? ?. rewrite !lookup_insert_ne by congruence. reflexivity.
    - eexists _, _, _. split; [reflexivity | reflexivity]. }
  destruct Hblock as (d1 & r1 & t1 & Hblock & Hd1).
  rewrite (bind_ok _ _ _ _ _ Hblock).
  (* the state, renamed *)
  rewrite (bind_ok _ _ _ _ _ (pop_default_at (heap w) doc "state" _ _ _)).
  rewrite (bind_ok _ _ _ _ _ (setitem_at (heap w) doc _ _ _ _ _)).
  rewrite (bind_ok _ _ _ _ _ (read_at (heap w) doc _ _ _)).
  (* the date of the update: no string, left alone *)
  replace (dict_get (<["province/state" := dict_get d1 "state"]> (delete "state" d1))
             "updated") with (dict_get e "updated").
  2: { symmetry. unfold dict_get.
       rewrite lookup_insert_ne, lookup_delete_ne by discriminate.
       rewrite Hd1, Hd0 by discriminate. reflexivity. }
  rewrite Hupd. rewrite (bind_ok _ _ _ _ _ eq_refl).
  (* the page *)
  rewrite (bind_ok _ _ _ _ _ (drop_if_present (heap w) doc "page" _ _ _)).
  (* the access time *)
  erewrite bind_ok.
  2: { rewrite getitem_at.
       rewrite lookup_delete_ne, lookup_insert_ne, lookup_delete_ne by discriminate.
       rewrite Hd1, Hd0 by discriminate. rewrite Htime. reflexivity. }
  erewrite bind_ok by (unfold parse.strptime; rewrite Hstamp; reflexivity).
  rewrite (bind_ok _ _ _ _ _ (setitem_at (heap w) doc _ _ _ _ _)).
  (* the identifier *)
  rewrite (bind_ok _ _ _ _ _ (read_other (heap w) doc entry e _ _ _ Hne Hentry)).
  erewrite bind_ok by (rewrite Hid; reflexivity).
  unfold ret. eauto.
Qed.

(** The sample entries have actions. *)
Lemma entry0_action :
  ∃ act w', parse.entry_to_act up 1 builder 0%nat w0 = Some (Ok act, w').
Proof.
  eapply (entry_to_act_returns up 0 builder 0%nat entry0 w0
            "2020-04-01 12:00:00" _ _ 200 fcc_block).
  - reflexivity.
  - vm_compute. reflexivity.
  - reflexivity.
  - vm_compute. reflexivity.
  - vm_compute. reflexivity.
  - reflexivity.
  - lia.
Qed.

Lemma entry_own_geometry_action :
  ∃ act w', parse.entry_to_act up 1 builder 0%nat w1 = Some (Ok act, w').
Proof.
  eapply (entry_to_act_returns up 0 builder 0%nat entry_own_geometry w1
            "2020-04-01 12:00:00" _ _ 200 fcc_block).
  - reflexivity.
  - vm_compute. reflexivity.
  - reflexivity.
  - vm_compute. reflexivity.
  - vm_compute. reflexivity.
  - reflexivity.
  - lia.
Qed.

Lemma present_is_not_None (d : gmap string value) (key : string) :
  present d key ↔ is_not_None (dict_get d key) = true.
Proof.
  unfold present, dict_get. destruct (d !! key) as [v |]; cbn [default].
  - split.
    + intros (v' & [= <-] & Hv). destruct v; [congruence | reflexivity ..].
    + intros Hv. exists v. split; [reflexivity |]. intros ->. discriminate.
  - split; [intros (v & [=] & _) | discriminate].
Qed.

(** C9.  [entry_to_act] leaves the entry it is given as it was, and every
    other object that the heap held before the call; this holds whether the
    call returns or raises.  When it returns, the document is a new object,
    apart from the entry, that holds none of lat, lon, state and page, and
    the identifier is the hash of the entry as it was given. *)
Theorem entry_to_act_leaves_entry_unchanged (E : env) (fuel : nat)
    (self : parse.ElasticParse) (entry : loc) (e : gmap string value)
    (w : world) (r : result (gmap string value)) (w' : world) :
  heap w !! entry = Some e →
  parse.entry_to_act E fuel self entry w = Some (r, w') →
  heap w' !! entry = Some e
  ∧ (∀ l, is_Some (heap w !! l) → heap w' !! l = heap w !! l)
  ∧ (∀ act, r = Ok act →
       ∃ doc d id,
         doc ≠ entry
         ∧ heap w !! doc = None
         ∧ heap w' !! doc = Some d
         ∧ d !! "lat" = None ∧ d !! "lon" = None
         ∧ d !! "state" = None ∧ d !! "page" = None
         ∧ parse.gen_id E e = Ok id
         ∧ (parse.body_name self ≠ Some "_id" → act !! "_id" = Some (VStr id))
         ∧ (∀ key, parse.body_name self = Some key → act !! key = Some (VRef doc))).
Proof.
  intros Hentry Hrun.
  destruct (entry_to_act_spec E fuel self entry e w r w' Hentry Hrun)
    as (d & Hheap & Hact).
  set (doc := fresh (dom (heap w))) in *.
  assert (Hfresh : heap w !! doc = None)
    by (apply not_elem_of_dom; apply is_fresh).
  assert (Hframe : ∀ l, is_Some (heap w !! l) → heap w' !! l = heap w !! l).
  { intros l [x Hl]. rewrite Hheap. apply lookup_insert_ne. congruence. }
  split; [rewrite Hframe by eauto; exact Hentry |].
  split; [exact Hframe |].
  intros act ->.
  destruct (Hact act eq_refl)
    as ((id & Hid & Hbody) & _ & _ & Hlat & Hlon & Hstate & Hpage).
  exists doc, d, id.
  split; [congruence |]. split; [exact Hfresh |].
  split; [rewrite Hheap; apply lookup_insert_eq |].
  do 4 (split; [assumption |]). split; [exact Hid |].
  rewrite Hbody. split.
  - intros Hkey. destruct (parse.body_name self) as [key |].
    + rewrite lookup_insert_ne by congruence. apply lookup_insert_eq.
    + apply lookup_insert_eq.
  - intros key ->. apply lookup_insert_eq.
Qed.

(** The sample entry, turned into an action: the entry is as it was, with
    its lat, lon, state and page. *)
Lemma entry_to_act_leaves_entry_unchanged_witness :
  ∃ act w',
    parse.entry_to_act up 1 builder 0%nat w0 = Some (Ok act, w')
    ∧ heap w' !! 0%nat = Some entry0.
Proof.
  destruct entry0_action as (act & w' & Hrun).
  exists act, w'. split; [exact Hrun |].
  exact (proj1 (entry_to_act_leaves_entry_unchanged up 1 builder 0%nat entry0 w0
                  (Ok act) w' eq_refl Hrun)).
Defined.

(** ** The document of pipe.py: [_transform_data_to_document] *)

(** The float getter gives null for a missing or null field, and a number
    for any other field it can cast. *)
Lemma mg_float (E : env) (key : string) (item : gmap string value) (v : value) :
  pipe.mg key (pipe.py_float E) item = Ok v →
  (is_not_None v = true ↔ present item key)
  ∧ (present item key → pipe.py_float E (dict_get item key) = Ok v).
Proof.
  unfold pipe.mg. rewrite present_is_not_None.
  destruct (dict_get item key) eqn:Hget; cbn [pipe.py_float is_not_None];
    intros Hv; repeat case_match; simplify_eq; cbn [is_not_None];
    split; auto; try tauto; try discriminate.
Qed.

(** The table filled in: lat and lon come from county_lat and county_lon
    through the float getter, and no entry of the table is called geometry
    or fips. *)
Lemma fill_county_config (E : env) (data_point doc : gmap string value) :
  pipe.fill (pipe.transform_config E) data_point ∅ = Ok doc →
  ∃ lat lon,
    doc !! "lat" = Some lat
    ∧ doc !! "lon" = Some lon
    ∧ pipe.mg "county_lat" (pipe.py_float E) data_point = Ok lat
    ∧ pipe.mg "county_lon" (pipe.py_float E) data_point = Ok lon
    ∧ doc !! "geometry" = None
    ∧ doc !! "fips" = None.
Proof.
  unfold pipe.transform_config, pipe.pg_to_es_county_config.
  cbn [pipe.fill]. intros Hfill.
  repeat match type of Hfill with
         | match ?g with Ok _ => _ | Err _ => _ end = _ =>
             let v := fresh "v" in
             let H := fresh "Hv" in
             destruct g as [v |] eqn:H; [| discriminate Hfill]
         end.
  simplify_eq. eexists _, _.
  split; [rewrite !lookup_insert_ne by discriminate; apply lookup_insert_eq |].
  split; [rewrite !lookup_insert_ne by discriminate; apply lookup_insert_eq |].
  split; [reflexivity |]. split; [reflexivity |].
  split; rewrite !lookup_insert_ne by discriminate; apply lookup_empty.
Qed.

(** The document of a row: geometry and region codes are there exactly when
    both coordinates of the row are, and the coordinates of the geometry are
    a mapping with the keys lat and lon. *)
Lemma transform_geometry (E : env) (fuel : nat)
    (data_point doc : gmap string value) (w w' : world) :
  pipe._transform_data_to_document E fuel data_point "lat" "lon" w
  = Some (Ok doc, w') →
  let both := present data_point "county_lat" ∧ present data_point "county_lon" in
  (is_Some (doc !! "geometry") ↔ both)
  ∧ (is_Some (doc !! "fips") ↔ both)
  ∧ (both →
     ∃ lat lon,
       pipe.py_float E (dict_get data_point "county_lat") = Ok lat
       ∧ pipe.py_float E (dict_get data_point "county_lon") = Ok lon
       ∧ doc !! "geometry"
         = Some (VDict {[ "coordinates" := VDict {[ "lat" := lat; "lon" := lon ]};
                          "type" := VStr "Point" ]})).
Proof.
  intros Hrun both. unfold pipe._transform_data_to_document in Hrun.
  apply bind_inv in Hrun as [(doc0 & w1 & Hfill & Hrun) | (ex & _ & [=])].
  unfold lift, ret, raise in Hfill.
  destruct (pipe.fill (pipe.transform_config E) data_point ∅) as [doc0' |] eqn:Hcfg;
    simplify_eq.
  destruct (fill_county_config E data_point doc0 Hcfg)
    as (lat & lon & Hlat & Hlon & Hmlat & Hmlon & Hgeom & Hfips).
  destruct (mg_float E _ _ _ Hmlat) as [Hlat_iff Hlat_val].
  destruct (mg_float E _ _ _ Hmlon) as [Hlon_iff Hlon_val].
  unfold dict_get in Hrun at 1 2 3 4 5 6. rewrite Hlat, Hlon in Hrun.
  cbn [default forallb id] in Hrun.
  rewrite !bool_decide_eq_true_2 in Hrun by eauto.
  cbn [andb] in Hrun. rewrite andb_true_r in Hrun.
  apply bind_inv in Hrun as [(doc1 & w2 & Hgeo & Hrun) | (ex & _ & [=])].
  unfold bind, pipe.utcnow_isoformat, ret in Hrun. simplify_eq.
  destruct (is_not_None lat && is_not_None lon) eqn:Hboth.
  - apply andb_true_iff in Hboth as [Hl Ho].
    apply Hlat_iff in Hl. apply Hlon_iff in Ho.
    apply bind_inv in Hgeo as [(fips & w3 & _ & Hgeo) | (ex & _ & [=])].
    unfold ret in Hgeo. simplify_eq.
    split; [| split].
    + rewrite !lookup_insert_ne by discriminate. rewrite lookup_insert_eq.
      subst both. split; eauto.
    + rewrite !lookup_insert_ne by discriminate. rewrite lookup_insert_eq.
      subst both. split; eauto.
    + intros _. exists lat, lon.
      split; [auto |]. split; [auto |].
      rewrite !lookup_insert_ne by discriminate. rewrite lookup_insert_eq.
      unfold dict_get. rewrite !lookup_insert_ne by discriminate.
      rewrite Hlat, Hlon. reflexivity.
  - unfold ret in Hgeo. simplify_eq.
    assert (Hnot : ¬ both).
    { subst both. intros [Hl Ho].
      apply Hlat_iff in Hl. apply Hlon_iff in Ho.
      rewrite Hl, Ho in Hboth. discriminate. }
    split; [| split].
    + rewrite !lookup_insert_ne by discriminate. rewrite Hgeom.
      split; [intros [? [=]] | tauto].
    + rewrite !lookup_insert_ne by discriminate. rewrite Hfips.
      split; [intros [? [=]] | tauto].
    + tauto.
Qed.

(** The lookup of pipe.py, answered 2xx at the first attempt, at the scope
    that the transformation asks for. *)
Lemma get_fips_county_scope (E : env) (fuel : nat) (lat lon : value)
    (status : Z) (json : gmap string value) (w : world) :
  requests_get E (pipe.fips_api E lat lon) (requests w) = Response status json →
  200 ≤ status < 300 →
  pipe.get_fips E (S fuel) lat lon 1 w
  = Some (Ok (delete "Block" json),
          {| heap := heap w; requests := S (requests w);
             trace := trace w ++ [EvRequest (pipe.fips_api E lat lon)] |}).
Proof.
  intros Hget Hstatus.
  unfold pipe.get_fips. cbn [pipe.Backoff].
  unfold pipe.get_fips_body, bind, http_get. rewrite Hget.
  unfold pipe.raise_for_status.
  replace (400 <=? status) with false by (symmetry; apply Z.leb_gt; lia).
  cbn [andb ret Z.ltb Z.compare Pos.compare Pos.compare_cont].
  destruct (bool_decide (is_Some (json !! "Block"))) eqn:HBlock; [reflexivity |].
  apply bool_decide_eq_false_1 in HBlock.
  rewrite delete_id; [reflexivity |].
  destruct (json !! "Block"); [exfalso; eauto | reflexivity].
Qed.

(** The transformation returns a document whenever the table can be filled
    in and, for a record with both coordinates, the lookup is answered. *)
Lemma transform_returns (E : env) (fuel : nat)
    (data_point doc0 : gmap string value) (lat lon : value)
    (status : Z) (json : gmap string value) (w : world) :
  pipe.fill (pipe.transform_config E) data_point ∅ = Ok doc0 →
  doc0 !! "lat" = Some lat →
  doc0 !! "lon" = Some lon →
  is_not_None lat = true →
  is_not_None lon = true →
  requests_get E (pipe.fips_api E lat lon) (requests w) = Response status json →
  200 ≤ status < 300 →
  ∃ doc w',
    pipe._transform_data_to_document E (S fuel) data_point "lat" "lon" w
    = Some (Ok doc, w').
Proof.
  intros Hfill Hlat Hlon Hl Ho Hget Hstatus.
  unfold pipe._transform_data_to_document.
  rewrite (bind_ok _ _ w w doc0) by (rewrite Hfill; reflexivity).
  unfold dict_get. rewrite Hlat, Hlon. cbn [default forallb id].
  rewrite !bool_decide_eq_true_2 by eauto. rewrite Hl, Ho. cbn [andb].
  unfold bind.
  rewrite (get_fips_county_scope E fuel lat lon status json w Hget Hstatus).
  unfold pipe.utcnow_isoformat, ret. eauto.
Qed.

(** ** Geometry and region codes *)

(** C1, as the code has it.  In both modules the document holds geometry
    and fips exactly when the record has both coordinates, present and not
    null, and holds neither key otherwise.  In parse.py (for an entry that
    brings no field geometry or fips of its own) the coordinates of the
    geometry are the list [lon, lat]; in pipe.py (where the record's fields
    are county_lat and county_lon, cast to float) they are the mapping
    {lat: lat, lon: lon}. *)
Theorem geometry_iff_both_coordinates (E : env) (fuel : nat) :
  (∀ self entry (e : gmap string value) w act w',
     heap w !! entry = Some e →
     e !! "geometry" = None →
     e !! "fips" = None →
     parse.entry_to_act E fuel self entry w = Some (Ok act, w') →
     ∃ d,
       heap w' !! fresh (dom (heap w)) = Some d
       ∧ (∀ key, parse.body_name self = Some key →
            act !! key = Some (VRef (fresh (dom (heap w)))))
       ∧ (is_Some (d !! "geometry") ↔ present e "lat" ∧ present e "lon")
       ∧ (is_Some (d !! "fips") ↔ present e "lat" ∧ present e "lon")
       ∧ (present e "lat" → present e "lon" →
          d !! "geometry"
          = Some (VDict {[ "coordinates" := VList [dict_get e "lon"; dict_get e "lat"];
                           "type" := VStr "Point" ]})))
  ∧ (∀ (data_point doc : gmap string value) w w',
       pipe._transform_data_to_document E fuel data_point "lat" "lon" w
       = Some (Ok doc, w') →
       (is_Some (doc !! "geometry")
        ↔ present data_point "county_lat" ∧ present data_point "county_lon")
       ∧ (is_Some (doc !! "fips")
          ↔ present data_point "county_lat" ∧ present data_point "county_lon")
       ∧ (present data_point "county_lat" → present data_point "county_lon" →
          ∃ lat lon,
            pipe.py_float E (dict_get data_point "county_lat") = Ok lat
            ∧ pipe.py_float E (dict_get data_point "county_lon") = Ok lon
            ∧ doc !! "geometry"
              = Some (VDict {[ "coordinates" := VDict {[ "lat" := lat; "lon" := lon ]};
                               "type" := VStr "Point" ]}))).
Proof.
  split.
  - intros self entry e w act w' Hentry Hgeom Hfips Hrun.
    destruct (entry_to_act_spec E fuel self entry e w _ w' Hentry Hrun)
      as (d & Hheap & Hact).
    destruct (Hact act eq_refl) as ((id & _ & Hbody) & Hg & Hf & _).
    exists d. split; [rewrite Hheap; apply lookup_insert_eq |].
    split; [intros key Hkey; rewrite Hbody, Hkey; apply lookup_insert_eq |].
    rewrite !present_is_not_None.
    destruct (is_not_None (dict_get e "lat")), (is_not_None (dict_get e "lon"));
      cbn [andb] in Hg, Hf.
    1: { destruct Hf as [fips Hf]. rewrite Hg, Hf.
         split; [split; eauto |]. split; [split; eauto | auto]. }
    all: rewrite Hgeom in Hg; rewrite Hfips in Hf; rewrite Hg, Hf;
      (split; [split; [intros [? [=]] | intros [? ?]; discriminate] |]);
      (split; [split; [intros [? [=]] | intros [? ?]; discriminate] |]);
      intros; discriminate.
  - intros data_point doc w w' Hrun.
    destruct (transform_geometry E fuel data_point doc w w' Hrun)
      as (Hg & Hf & Hshape).
    split; [exact Hg |]. split; [exact Hf |]. auto.
Qed.

(** The sample row has a document. *)
Lemma row0_document :
  ∃ doc w',
    pipe._transform_data_to_document up 1 row0 "lat" "lon" w0 = Some (Ok doc, w').
Proof.
  eapply (transform_returns up 0 row0 _ lat0 lon0 200 fcc_block w0).
  - unfold pipe.transform_config, pipe.pg_to_es_county_config. cbn [pipe.fill].
    repeat match goal with
           | |- context [pipe.mg ?key ?cast row0] =>
               let r := eval vm_compute in (pipe.mg key cast row0) in
               replace (pipe.mg key cast row0) with r by (vm_compute; reflexivity)
           end.
    reflexivity.
  - rewrite !lookup_insert_ne by discriminate. apply lookup_insert_eq.
  - rewrite !lookup_insert_ne by discriminate. apply lookup_insert_eq.
  - reflexivity.
  - reflexivity.
  - reflexivity.
  - lia.
Qed.

(** The sample entry and the sample row, both with latitude 40 and longitude
    -75: the document of parse.py holds [lon, lat], the document of pipe.py
    holds {lat, lon}. *)
Lemma geometry_iff_both_coordinates_witness :
  (∃ act w' d,
     parse.entry_to_act up 1 builder 0%nat w0 = Some (Ok act, w')
     ∧ heap w' !! 1%nat = Some d
     ∧ d !! "geometry"
       = Some (VDict {[ "coordinates" := VList [lon0; lat0]; "type" := VStr "Point" ]}))
  ∧ (∃ doc w',
       pipe._transform_data_to_document up 1 row0 "lat" "lon" w0 = Some (Ok doc, w')
       ∧ doc !! "geometry"
         = Some (VDict {[ "coordinates" := VDict {[ "lat" := lat0; "lon" := lon0 ]};
                          "type" := VStr "Point" ]})).
Proof.
  destruct (geometry_iff_both_coordinates up 1) as [Hparse Hpipe].
  assert (Hlat : present entry0 "lat")
    by (exists lat0; split; [reflexivity | discriminate]).
  assert (Hlon : present entry0 "lon")
    by (exists lon0; split; [reflexivity | discriminate]).
  assert (Hclat : present row0 "county_lat")
    by (exists lat0; split; [reflexivity | discriminate]).
  assert (Hclon : present row0 "county_lon")
    by (exists lon0; split; [reflexivity | discriminate]).
  split.
  - destruct entry0_action as (act & w' & Hrun).
    destruct (Hparse builder 0%nat entry0 w0 act w' eq_refl eq_refl eq_refl Hrun)
      as (d & Hd & _ & _ & _ & Hgeom).
    exists act, w', d. split; [exact Hrun |]. split; [exact Hd |].
    exact (Hgeom Hlat Hlon).
  - destruct row0_document as (doc & w' & Hrun).
    destruct (Hpipe row0 doc w0 w' Hrun) as (_ & _ & Hgeom).
    destruct (Hgeom Hclat Hclon) as (lat & lon & Hflat & Hflon & Hdoc).
    exists doc, w'. split; [exact Hrun |].
    injection Hflat as <-. injection Hflon as <-. exact Hdoc.
Defined.

(** C1, as the claim has it, fails.  On pipe.py the sample row has both
    coordinates, and the geometry of its document is not
    {type: Point, coordinates: [lon, lat]}.  On parse.py an entry without
    coordinates that brings a field geometry of its own has a document with
    the key geometry. *)
Lemma geometry_coordinates_counterexample :
  (∃ doc w',
     pipe._transform_data_to_document up 1 row0 "lat" "lon" w0 = Some (Ok doc, w')
     ∧ present row0 "county_lat"
     ∧ present row0 "county_lon"
     ∧ doc !! "geometry"
       ≠ Some (VDict {[ "coordinates" := VList [lon0; lat0]; "type" := VStr "Point" ]}))
  ∧ (∃ act w' d,
       parse.entry_to_act up 1 builder 0%nat w1 = Some (Ok act, w')
       ∧ heap w' !! 1%nat = Some d
       ∧ is_Some (d !! "geometry")
       ∧ ¬ present entry_own_geometry "lat").
Proof.
  split.
  - assert (Hclat : present row0 "county_lat")
      by (exists lat0; split; [reflexivity | discriminate]).
    assert (Hclon : present row0 "county_lon")
      by (exists lon0; split; [reflexivity | discriminate]).
    destruct row0_document as (doc & w' & Hrun).
    exists doc, w'. split; [exact Hrun |]. split; [exact Hclat |]. split; [exact Hclon |].
    destruct (transform_geometry up 1 row0 doc w0 w' Hrun) as (_ & _ & Hshape).
    destruct (Hshape (conj Hclat Hclon)) as (lat & lon & _ & _ & Hdoc).
    rewrite Hdoc. intros Heq.
    apply (f_equal (λ v, match v with
                         | Some (VDict m) => m !! "coordinates"
                         | _ => None
                         end)) in Heq.
    rewrite !lookup_insert_eq in Heq. discriminate Heq.
  - destruct entry_own_geometry_action as (act & w' & Hrun).
    destruct (entry_to_act_spec up 1 builder 0%nat entry_own_geometry w1 _ _
                eq_refl Hrun) as (d & Hheap & Hact).
    destruct (Hact act eq_refl) as (_ & Hgeom & _).
    exists act, w', d. split; [exact Hrun |].
    split; [rewrite Hheap; reflexivity |].
    split; [rewrite Hgeom; eexists; reflexivity |].
    intros (v & Hv & _). discriminate Hv.
Qed.

(** * Further properties *)

(** ** The identity hash of parse.py *)

(** X1.  [gen_id] reads the fields county, lat, lon, state and scrape_group
    and no other: writing or removing any other field of an entry changes
    neither the identifier nor the failure. *)
Theorem gen_id_reads_five_fields (E : env) (entry : gmap string value)
    (key : string) (v : value) :
  key ∉ ["county"; "lat"; "lon"; "state"; "scrape_group"] →
  parse.gen_id E (<[key := v]> entry) = parse.gen_id E entry
  ∧ parse.gen_id E (delete key entry) = parse.gen_id E entry.
Proof.
  intros Hkey.
  assert (Hne : ∀ k, k ∈ ["county"; "lat"; "lon"; "state"; "scrape_group"] → key ≠ k)
    by (intros k Hk ->; contradiction).
  assert (Hins : ∀ k, k ∈ ["county"; "lat"; "lon"; "state"; "scrape_group"] →
            dict_get (<[key := v]> entry) k = dict_get entry k)
    by (intros k Hk; unfold dict_get; rewrite lookup_insert_ne by auto; reflexivity).
  assert (Hdel : ∀ k, k ∈ ["county"; "lat"; "lon"; "state"; "scrape_group"] →
            dict_get (delete key entry) k = dict_get entry k)
    by (intros k Hk; unfold dict_get; rewrite lookup_delete_ne by auto; reflexivity).
  unfold parse.gen_id.
  rewrite !Hins, !Hdel by (rewrite !elem_of_cons; tauto).
  split; reflexivity.
Qed.

Lemma gen_id_reads_five_fields_witness :
  parse.gen_id up (<["cases" := VInt 13]> entry0) = parse.gen_id up entry0
  ∧ parse.gen_id up (delete "page" entry0) = parse.gen_id up entry0.
Proof.
  assert (Hcases : "cases" ∉ ["county"; "lat"; "lon"; "state"; "scrape_group"])
    by (rewrite !not_elem_of_cons; repeat split; try discriminate; apply not_elem_of_nil).
  assert (Hpage : "page" ∉ ["county"; "lat"; "lon"; "state"; "scrape_group"])
    by (rewrite !not_elem_of_cons; repeat split; try discriminate; apply not_elem_of_nil).
  split.
  - exact (proj1 (gen_id_reads_five_fields up entry0 "cases" (VInt 13) Hcases)).
  - exact (proj2 (gen_id_reads_five_fields up entry0 "page" VNone Hpage)).
Defined.



(** X3.  In [gen_id] the county comes first: with a county that is a
    non-empty string the coordinates are not read, so entries of one county
    with different coordinates share an identifier; and an empty county is
    taken like a missing one. *)
Theorem gen_id_county_first (E : env) (entry : gmap string value)
    (name : string) (lat lon : value) :
  (entry !! "county" = Some (VStr name) → name ≠ "" →
   parse.gen_id E (<["lat" := lat]> (<["lon" := lon]> entry)) = parse.gen_id E entry)
  ∧ parse.gen_id E (<["county" := VStr ""]> entry)
    = parse.gen_id E (delete "county" entry).
Proof.
  split.
  - intros Hcounty Hname. unfold parse.gen_id.
    assert (Hget : ∀ d : gmap string value, d !! "county" = Some (VStr name) →
              truthy (dict_get d "county") = true ∧ dict_get d "county" = VStr name).
    { intros d Hd. unfold dict_get. rewrite Hd. cbn [default truthy].
      split; [| reflexivity]. apply negb_true_iff, String.eqb_neq, Hname. }
    destruct (Hget entry Hcounty) as [-> ->].
    destruct (Hget (<["lat" := lat]> (<["lon" := lon]> entry))) as [-> ->].
    { rewrite !lookup_insert_ne by discriminate. exact Hcounty. }
    unfold dict_get. rewrite !lookup_insert_ne by discriminate. reflexivity.
  - unfold parse.gen_id, dict_get.
    rewrite lookup_insert_eq, lookup_delete_eq. cbn [default truthy String.eqb negb].
    rewrite !lookup_insert_ne, !lookup_delete_ne by discriminate. reflexivity.
Qed.

Lemma gen_id_county_first_witness :
  parse.gen_id up (<["lat" := VFloat (inject_Z 41)]> (<["lon" := VNone]> entry0))
  = parse.gen_id up entry0.
Proof.
  apply (proj1 (gen_id_county_first up entry0 "Knox" (VFloat (inject_Z 41)) VNone)).
  - reflexivity.
  - discriminate.
Defined.

(** ** The identity hash of pipe.py *)

Lemma append_assoc (a b c : string) : (a ++ b) ++ c = a ++ (b ++ c).
Proof.
  induction a as [| ch a IH]; [reflexivity |].
  change (String ch ((a ++ b) ++ c) = String ch (a ++ (b ++ c))).
  rewrite IH. reflexivity.
Qed.

(** X4.  [county_gen_id] hashes the plain concatenation of the access time,
    the country, the state and the county name, a missing one counting as
    the empty string: rows whose fields split the same text differently
    share an identifier, and so do a row with an empty state and the row
    without a state. *)
Theorem county_gen_id_concatenates (E : env) (item : gmap string value)
    (a b c : string) :
  pipe.county_gen_id E (<["country" := VStr (a ++ b)]> (<["state" := VStr c]> item))
  = pipe.county_gen_id E (<["country" := VStr a]> (<["state" := VStr (b ++ c)]> item))
  ∧ pipe.county_gen_id E (<["state" := VStr ""]> item)
    = pipe.county_gen_id E (delete "state" item).
Proof.
  unfold pipe.county_gen_id, dict_get. cbn [map]. split.
  - rewrite !lookup_insert_eq.
    rewrite !(lookup_insert_ne (<["state" := _]> item)) by discriminate.
    rewrite !lookup_insert_eq. rewrite !lookup_insert_ne by discriminate.
    destruct (pipe.dt_to_str E (default VNone (item !! "access_time"))); [| reflexivity].
    destruct (default (VStr "") (item !! "county_name")); simpl; try reflexivity.
    rewrite !append_assoc. reflexivity.
  - rewrite lookup_insert_eq, lookup_delete_eq.
    rewrite !lookup_insert_ne, !lookup_delete_ne by discriminate. reflexivity.
Qed.

(** ** The lookup of parse.py: a retry that succeeds *)

Lemma sleeps_app (evs evs' : list event) :
  sleeps (evs ++ evs') = (sleeps evs ++ sleeps evs')%list.
Proof.
  induction evs as [| ev evs IH]; [reflexivity |].
  destruct ev; cbn [app sleeps]; rewrite IH; reflexivity.
Qed.

Lemma delays_succ (first : Z) (k : nat) :
  parse.delays first (S k) = 2 ^ first :: parse.delays (first + 1) k.
Proof.
  unfold parse.delays. cbn [seq map]. f_equal; [f_equal; lia |].
  rewrite <- seq_shift, map_map. apply map_ext. intros i. f_equal. lia.
Qed.

(** A round that is retried, whatever the reason. *)
Lemma get_fips_loop_round (E : env) (fips_request : string) (fuel : nat)
    (attempts : Z) (w : world) :
  parse.retried (requests_get E fips_request (requests w)) attempts →
  parse.get_fips_loop E (S fuel) fips_request attempts w
  = parse.get_fips_loop E fuel fips_request (attempts + 1)
      {| heap := heap w; requests := S (requests w);
         trace := trace w ++ [EvRequest fips_request; EvSleep (2 ^ attempts)] |}.
Proof.
  intros Hretried.
  destruct (requests_get E fips_request (requests w)) as [| status json] eqn:Hget.
  - apply get_fips_loop_retries; assumption.
  - cbn [parse.retried] in Hretried. cbn [parse.get_fips_loop].
    unfold bind at 1. unfold http_get. rewrite Hget.
    replace ((200 <=? status) && (status <? 300)) with false.
    + cbn [negb]. unfold bind, sleep, log. cbn [heap requests trace].
      rewrite <- app_assoc. reflexivity.
    + symmetry. apply andb_false_iff.
      destruct (Z.leb_spec 200 status); [| tauto].
      right. apply Z.ltb_ge. lia.
Qed.

Lemma get_fips_loop_succeeds (E : env) (fips_request : string) (k : nat) :
  ∀ (fuel : nat) (attempts : Z) (w : world) (status : Z) (json : gmap string value),
    (∀ i, (i < k)%nat →
       parse.retried (requests_get E fips_request (requests w + i)%nat)
         (attempts + Z.of_nat i)) →
    requests_get E fips_request (requests w + k)%nat = Response status json →
    200 ≤ status < 300 →
    (k < fuel)%nat →
    ∃ w',
      parse.get_fips_loop E fuel fips_request attempts w = Some (Ok json, w')
      ∧ heap w' = heap w
      ∧ requests w' = (requests w + k + 1)%nat
      ∧ sleeps (trace w') = (sleeps (trace w) ++ parse.delays attempts k)%list.
Proof.
  induction k as [| k IH]; intros fuel attempts w status json Hretried Hget Hstatus Hfuel;
    (destruct fuel as [| fuel]; [lia |]).
  - rewrite Nat.add_0_r in Hget. cbn [parse.get_fips_loop].
    unfold bind, http_get. rewrite Hget.
    replace (200 <=? status) with true by (symmetry; apply Z.leb_le; lia).
    replace (status <? 300) with true by (symmetry; apply Z.ltb_lt; lia).
    cbn [andb negb ret]. eexists. split; [reflexivity |].
    cbn [heap requests trace]. split; [reflexivity |]. split; [lia |].
    rewrite sleeps_app. reflexivity.
  - rewrite get_fips_loop_round.
    2: { specialize (Hretried 0%nat ltac:(lia)).
         rewrite Nat.add_0_r, Z.add_0_r in Hretried. exact Hretried. }
    destruct (IH fuel (attempts + 1)
                {| heap := heap w; requests := S (requests w);
                   trace := trace w ++ [EvRequest fips_request; EvSleep (2 ^ attempts)] |}
                status json) as (w' & Hrun & Hheap & Hreq & Hsleeps).
    + intros i Hi. cbn [requests]. specialize (Hretried (S i) ltac:(lia)).
      replace (S (requests w) + i)%nat with (requests w + S i)%nat by lia.
      replace (attempts + 1 + Z.of_nat i) with (attempts + Z.of_nat (S i)) by lia.
      exact Hretried.
    + cbn [requests]. replace (S (requests w) + k)%nat with (requests w + S k)%nat by lia.
      exact Hget.
    + exact Hstatus.
    + lia.
    + exists w'. split; [exact Hrun |].
      cbn [heap requests trace] in *. split; [exact Hheap |]. split; [lia |].
      rewrite Hsleeps, sleeps_app, delays_succ. cbn [sleeps].
      rewrite <- app_assoc. reflexivity.
Qed.

(** X5.  [ElasticParse.get_fips] against an endpoint that fails [k] times
    (a status outside 200..299 any number of times, a connection error only
    within the first six requests) and then answers 2xx: it returns the body
    of that answer after [k + 1] requests, having slept 1, 2, 4, ...,
    2 ^ (k - 1) seconds between them, and leaves the heap alone. *)
Theorem get_fips_returns_after_retries (E : env) (lat lon : value) (k fuel : nat)
    (status : Z) (json : gmap string value) (w : world) :
  let url := parse.fips_skeleton E lat lon in
  (∀ i, (i < k)%nat →
     parse.retried (requests_get E url (requests w + i)%nat) (Z.of_nat i)) →
  requests_get E url (requests w + k)%nat = Response status json →
  200 ≤ status < 300 →
  (k < fuel)%nat →
  ∃ w',
    parse.get_fips E fuel lat lon w = Some (Ok json, w')
    ∧ heap w' = heap w
    ∧ requests w' = (requests w + k + 1)%nat
    ∧ sleeps (trace w') = (sleeps (trace w) ++ parse.delays 0 k)%list.
Proof.
  intros url Hretried Hget Hstatus Hfuel. unfold parse.get_fips. fold url.
  apply (get_fips_loop_succeeds E url k fuel 0 w status json); auto.
Qed.

(** An endpoint that fails twice and then answers: three requests, and
    delays of 1 and 2 seconds. *)
Lemma get_fips_returns_after_retries_witness :
  ∃ w',
    parse.get_fips flaky 3 lat0 lon0 w0 = Some (Ok fcc_block, w')
    ∧ heap w' = heap w0
    ∧ requests w' = 3%nat
    ∧ sleeps (trace w') = [1; 2].
Proof.
  apply (get_fips_returns_after_retries flaky lat0 lon0 2 3 200 fcc_block w0).
  - intros i Hi. destruct i as [| [| i]]; [simpl; lia | simpl; lia | lia].
  - reflexivity.
  - lia.
  - lia.
Defined.




(** ** The lookup of pipe.py: one attempt *)

(** X7.  One attempt of [get_fips] only removes: whatever the scope, the
    block it returns is part of the response, and every key other than
    Block and State, County among them, is returned as it came. *)
Theorem get_fips_body_only_removes (E : env) (lat lon : value) (scope status : Z)
    (json resj : gmap string value) (w w' : world) :
  requests_get E (pipe.fips_api E lat lon) (requests w) = Response status json →
  pipe.get_fips_body E lat lon scope w = Some (Ok resj, w') →
  resj ⊆ json
  ∧ (∀ key, key ≠ "Block" → key ≠ "State" → resj !! key = json !! key)
  ∧ (2 ≤ scope → resj = json).
Proof.
  intros Hget Hrun. unfold pipe.get_fips_body, bind, http_get in Hrun.
  rewrite Hget in Hrun. unfold pipe.raise_for_status in Hrun.
  destruct ((400 <=? status) && (status <? 600)); [discriminate Hrun |].
  unfold ret at 1 in Hrun.
  set (resj1 := if (scope <? 2) && bool_decide (is_Some (json !! "Block"))
                then delete "Block" json else json) in Hrun.
  assert (Hsub1 : resj1 ⊆ json)
    by (subst resj1;
        destruct ((scope <? 2) && bool_decide (is_Some (json !! "Block")));
        [apply delete_subseteq | reflexivity]).
  assert (Hkeep1 : ∀ key, key ≠ "Block" → resj1 !! key = json !! key).
  { intros key Hkey. subst resj1.
    destruct ((scope <? 2) && bool_decide (is_Some (json !! "Block")));
      [apply lookup_delete_ne; congruence | reflexivity]. }
  assert (Hscope1 : 2 ≤ scope → resj1 = json).
  { intros Hscope. subst resj1.
    replace (scope <? 2) with false by (symmetry; apply Z.ltb_ge; lia). reflexivity. }
  destruct (scope <? 1) eqn:Hlt; cbn [andb] in Hrun.
  - apply Z.ltb_lt in Hlt.
    destruct (bool_decide (is_Some (resj1 !! "County"))).
    + destruct (resj1 !! "State"); unfold ret, raise in Hrun; simplify_eq.
      split; [etrans; [apply delete_subseteq | exact Hsub1] |].
      split; [| lia].
      intros key HB HS. rewrite lookup_delete_ne by congruence. auto.
    + unfold ret in Hrun. simplify_eq. split; [exact Hsub1 |]. split; [auto | lia].
  - unfold ret in Hrun. simplify_eq. split; [exact Hsub1 |]. auto.
Qed.

Lemma get_fips_body_only_removes_witness :
  ∃ resj w',
    pipe.get_fips_body up lat0 lon0 1 w0 = Some (Ok resj, w')
    ∧ resj ⊆ fcc_block
    ∧ resj !! "County" = fcc_block !! "County".
Proof.
  assert (Hrun : pipe.get_fips_body up lat0 lon0 1 w0
                 = Some (Ok (delete "Block" fcc_block),
                         {| heap := heap w0; requests := 1;
                            trace := [EvRequest (pipe.fips_api up lat0 lon0)] |})).
  { unfold pipe.get_fips_body, bind, http_get, pipe.raise_for_status.
    cbn [requests_get up Z.leb Z.ltb Z.compare Pos.compare Pos.compare_cont andb ret].
    rewrite bool_decide_eq_true_2 by (eexists; reflexivity). reflexivity. }
  destruct (get_fips_body_only_removes up lat0 lon0 1 200 fcc_block _ w0 _ eq_refl Hrun)
    as (Hsub & Hkeep & _).
  eexists _, _. split; [exact Hrun |]. split; [exact Hsub |].
  apply Hkeep; discriminate.
Defined.

(** X8.  Below scope 1 an attempt of [get_fips] that is answered 2xx with a
    County and no State raises KeyError('State'): the key it deletes is not
    the key it tests. *)
Theorem get_fips_body_missing_state (E : env) (lat lon : value) (scope status : Z)
    (json : gmap string value) (w : world) :
  requests_get E (pipe.fips_api E lat lon) (requests w) = Response status json →
  200 ≤ status < 300 →
  scope < 1 →
  is_Some (json !! "County") →
  json !! "State" = None →
  pipe.get_fips_body E lat lon scope w
  = Some (Err (KeyError "State"),
          {| heap := heap w; requests := S (requests w);
             trace := trace w ++ [EvRequest (pipe.fips_api E lat lon)] |}).
Proof.
  intros Hget Hstatus Hscope HCounty HState.
  unfold pipe.get_fips_body, bind, http_get. rewrite Hget.
  unfold pipe.raise_for_status.
  replace (400 <=? status) with false by (symmetry; apply Z.leb_gt; lia).
  cbn [andb ret].
  replace (scope <? 2) with true by (symmetry; apply Z.ltb_lt; lia).
  replace (scope <? 1) with true by (symmetry; apply Z.ltb_lt; lia).
  cbn [andb].
  set (resj := if bool_decide (is_Some (json !! "Block"))
               then delete "Block" json else json).
  assert (HC : is_Some (resj !! "County")).
  { subst resj. destruct (bool_decide _); [| exact HCounty].
    rewrite lookup_delete_ne by discriminate. exact HCounty. }
  assert (HS : resj !! "State" = None).
  { subst resj. destruct (bool_decide _); [| exact HState].
    rewrite lookup_delete_ne by discriminate. exact HState. }
  rewrite (bool_decide_eq_true_2 _ HC), HS. reflexivity.
Qed.

Lemma get_fips_body_missing_state_witness :
  pipe.get_fips_body stateless lat0 lon0 0 w0
  = Some (Err (KeyError "State"),
          {| heap := heap w0; requests := 1;
             trace := [EvRequest (pipe.fips_api stateless lat0 lon0)] |}).
Proof.
  apply (get_fips_body_missing_state stateless lat0 lon0 0 200
           (delete "State" fcc_block) w0).
  - reflexivity.
  - lia.
  - lia.
  - rewrite lookup_delete_ne by discriminate. eexists. reflexivity.
  - apply lookup_delete_eq.
Defined.

(** ** The document of parse.py *)

(** The date of the update, when it is a string, is read in the format
    month day, year; any other value is left as it is. *)
Lemma updated_block_value (E : env) (h : gmap loc (gmap string value))
    (doc : loc) (d : gmap string value) r t w1 :
  (if is_str (dict_get d "updated")
   then
     bind (dict_getitem doc "updated")
          (λ updated, bind (parse.strptime E updated "%B %d, %Y")
                           (λ stamp, dict_setitem doc "updated" stamp))
   else ret tt) {| heap := <[doc := d]> h; requests := r; trace := t |}
  = Some (Ok tt, w1) →
  ∃ d1, w1 = {| heap := <[doc := d1]> h; requests := r; trace := t |}
        ∧ (∀ key, key ≠ "updated" → d1 !! key = d !! key)
        ∧ (if is_str (dict_get d "updated")
           then ∃ text stamp,
                  d !! "updated" = Some (VStr text)
                  ∧ strptime_timestamp E text "%B %d, %Y" = Some stamp
                  ∧ d1 !! "updated" = Some (VFloat stamp)
           else d1 !! "updated" = d !! "updated").
Proof.
  destruct (is_str (dict_get d "updated")) eqn:Hstr; intros Hrun.
  - apply bind_inv in Hrun as [(v & w2 & Hget & Hrun) | (ex & _ & [=])].
    rewrite getitem_at in Hget. destruct (d !! "updated") as [v' |]; simplify_eq.
    apply bind_inv in Hrun as [(stamp & w2 & Hstamp & Hrun) | (ex & _ & [=])].
    unfold parse.strptime, ret, raise in Hstamp.
    destruct v as [| | | | text | | | |]; simplify_eq.
    destruct (strptime_timestamp E text "%B %d, %Y") as [q |] eqn:Hq; simplify_eq.
    rewrite setitem_at in Hrun. simplify_eq.
    eexists. split; [reflexivity |]. split.
    + intros key Hkey. rewrite lookup_insert_ne by congruence. reflexivity.
    + exists text, q. split; [reflexivity |]. split; [exact Hq |].
      apply lookup_insert_eq.
  - unfold ret in Hrun. simplify_eq. eexists. split; [reflexivity |]. split; reflexivity.
Qed.

(** The document that [entry_to_act] leaves in the heap when it returns. *)
Lemma entry_to_act_document (E : env) (fuel : nat) (self : parse.ElasticParse)
    (entry : loc) (e : gmap string value) (w : world)
    (act : gmap string value) (w' : world) :
  heap w !! entry = Some e →
  parse.entry_to_act E fuel self entry w = Some (Ok act, w') →
  ∃ d,
    heap w' = <[fresh (dom (heap w)) := d]> (heap w)
    ∧ d !! "province/state" = Some (dict_get e "state")
    ∧ (∃ text stamp,
         e !! "access_time" = Some (VStr text)
         ∧ strptime_timestamp E text "%Y-%m-%d %H:%M:%S" = Some stamp
         ∧ d !! "access_time" = Some (VFloat stamp))
    ∧ (if is_str (dict_get e "updated")
       then ∃ text stamp,
              e !! "updated" = Some (VStr text)
              ∧ strptime_timestamp E text "%B %d, %Y" = Some stamp
              ∧ d !! "updated" = Some (VFloat stamp)
       else d !! "updated" = e !! "updated")
    ∧ (∀ key,
         key ∉ ["lat"; "lon"; "state"; "province/state"; "updated"; "page";
                "access_time"; "geometry"; "fips"] →
         d !! key = e !! key)
    ∧ (is_not_None (dict_get e "lat") && is_not_None (dict_get e "lon") = false →
       requests w' = requests w ∧ trace w' = trace w).
Proof.
  intros Hentry Hrun.
  set (doc := fresh (dom (heap w))).
  assert (Hfresh : heap w !! doc = None)
    by (apply not_elem_of_dom; apply is_fresh).
  assert (Hne : entry ≠ doc) by congruence.
  unfold parse.entry_to_act in Hrun.
  rewrite (bind_ok _ _ w {| heap := <[doc := e]> (heap w); requests := requests w;
                             trace := trace w |} doc) in Hrun.
  2: { unfold dict_copy, bind, dict_read. rewrite Hentry. reflexivity. }
  rewrite (bind_ok _ _ _ _ _ (pop_if_present (heap w) doc "lat" e _ _)) in Hrun.
  rewrite (bind_ok _ _ _ _ _ (pop_if_present (heap w) doc "lon" _ _ _)) in Hrun.
  replace (dict_get (delete "lat" e) "lon") with (dict_get e "lon") in Hrun
    by (unfold dict_get; rewrite lookup_delete_ne by discriminate; reflexivity).
  set (d0 := delete "lon" (delete "lat" e)) in Hrun.
  assert (Hd0 : ∀ key, key ≠ "lat" → key ≠ "lon" → d0 !! key = e !! key)
    by (intros key ? ?; unfold d0; rewrite !lookup_delete_ne by congruence; reflexivity).
  clearbody d0.
  (* the geometry *)
  apply bind_inv in Hrun as [([] & w1 & Hgeo & Hrun) | (ex & _ & [=])].
  assert (Hquiet : is_not_None (dict_get e "lat") && is_not_None (dict_get e "lon") = false →
            requests w1 = requests w ∧ trace w1 = trace w).
  { intros Hno. rewrite Hno in Hgeo. unfold ret in Hgeo. simplify_eq. split; reflexivity. }
  apply geometry_block_at in Hgeo as (d1 & Hw1 & Hd1).
  destruct (Hd1 eq_refl) as (Hkeep1 & _). clear Hd1.
  rewrite Hw1 in Hrun. clear Hw1.
  revert Hquiet Hrun. generalize (requests w1) (trace w1).
  intros r1 t1 Hquiet Hrun. clear w1.
  (* the state, renamed *)
  rewrite (bind_ok _ _ _ _ _ (pop_default_at (heap w) doc "state" _ _ _)) in Hrun.
  rewrite (bind_ok _ _ _ _ _ (setitem_at (heap w) doc _ _ _ _ _)) in Hrun.
  rewrite (bind_ok _ _ _ _ _ (read_at (heap w) doc _ _ _)) in Hrun.
  set (d2 := <["province/state" := dict_get d1 "state"]> (delete "state" d1)) in Hrun.
  assert (Hstate : dict_get d1 "state" = dict_get e "state")
    by (unfold dict_get; rewrite Hkeep1, Hd0 by discriminate; reflexivity).
  assert (Hd2 : ∀ key, key ≠ "province/state" → key ≠ "state" → d2 !! key = d1 !! key)
    by (intros key ? ?; unfold d2;
        rewrite lookup_insert_ne, lookup_delete_ne by congruence; reflexivity).
  assert (Hprov : d2 !! "province/state" = Some (dict_get e "state"))
    by (unfold d2; rewrite lookup_insert_eq, Hstate; reflexivity).
  assert (Hupd2 : d2 !! "updated" = e !! "updated")
    by (rewrite Hd2, Hkeep1, Hd0 by discriminate; reflexivity).
  assert (Htime2 : d2 !! "access_time" = e !! "access_time")
    by (rewrite Hd2, Hkeep1, Hd0 by discriminate; reflexivity).
  clearbody d2.
  (* the date of the update *)
  apply bind_inv in Hrun as [([] & w3 & Hupd & Hrun) | (ex & _ & [=])].
  apply updated_block_value in Hupd as (d3 & -> & Hkeep3 & Hupd3).
  replace (dict_get d2 "updated") with (dict_get e "updated") in Hupd3
    by (unfold dict_get; rewrite Hupd2; reflexivity).
  rewrite Hupd2 in Hupd3.
  (* the page *)
  rewrite (bind_ok _ _ _ _ _ (drop_if_present (heap w) doc "page" _ _ _)) in Hrun.
  (* the access time *)
  apply bind_inv in Hrun as [(access_time & w4 & Hget & Hrun) | (ex & _ & [=])].
  rewrite getitem_at in Hget.
  rewrite lookup_delete_ne, Hkeep3, Htime2 in Hget by discriminate.
  destruct (e !! "access_time") as [v |] eqn:Htime; simplify_eq.
  apply bind_inv in Hrun as [(stamp & w4 & Hstamp & Hrun) | (ex & _ & [=])].
  unfold parse.strptime, ret, raise in Hstamp.
  destruct access_time as [| | | | text | | | |]; simplify_eq.
  destruct (strptime_timestamp E text "%Y-%m-%d %H:%M:%S") as [q |] eqn:Hq;
    simplify_eq.
  rewrite (bind_ok _ _ _ _ _ (setitem_at (heap w) doc _ _ _ _ _)) in Hrun.
  (* the identifier *)
  rewrite (bind_ok _ _ _ _ _ (read_other (heap w) doc entry e _ _ _ Hne Hentry)) in Hrun.
  apply bind_inv in Hrun as [(id & w5 & Hid & Hrun) | (ex & _ & [=])].
  unfold lift, ret, raise in Hid. destruct (parse.gen_id E e) as [id' | ex'];
    simplify_eq.
  unfold ret in Hrun. simplify_eq.
  eexists. split; [reflexivity |].
  split; [rewrite lookup_insert_ne, lookup_delete_ne, Hkeep3 by discriminate;
          exact Hprov |].
  split; [exists text, q; split; [reflexivity |]; split; [exact Hq |];
          apply lookup_insert_eq |].
  split.
  { destruct (is_str (dict_get e "updated")).
    - destruct Hupd3 as (utext & ustamp & Hu1 & Hu2 & Hu3).
      exists utext, ustamp. split; [exact Hu1 |]. split; [exact Hu2 |].
      rewrite lookup_insert_ne, lookup_delete_ne by discriminate. exact Hu3.
    - rewrite lookup_insert_ne, lookup_delete_ne by discriminate. exact Hupd3. }
  split; [| exact Hquiet].
  intros key Hkey. rewrite !not_elem_of_cons in Hkey.
  destruct Hkey as (? & ? & ? & ? & ? & ? & ? & ? & ? & _).
  rewrite lookup_insert_ne, lookup_delete_ne, Hkeep3, Hd2, Hkeep1, Hd0 by congruence.
  reflexivity.
Qed.

(** X9.  The document of an action, field by field: the state of the entry
    is stored under province/state (null when the entry has none); the access
    time, a string in the format year-month-day hour:minute:second, is
    replaced by its timestamp; a date of update that is a string is read in
    the format month day, year and replaced by its timestamp, any other is
    left as it is; every field that is none of lat, lon, state,
    province/state, updated, page, access_time, geometry and fips is copied
    unchanged. *)
Theorem entry_to_act_document_fields (E : env) (fuel : nat)
    (self : parse.ElasticParse) (entry : loc) (e : gmap string value)
    (w : world) (act : gmap string value) (w' : world) :
  heap w !! entry = Some e →
  parse.entry_to_act E fuel self entry w = Some (Ok act, w') →
  ∃ d,
    heap w' !! fresh (dom (heap w)) = Some d
    ∧ (∀ key, parse.body_name self = Some key →
         act !! key = Some (VRef (fresh (dom (heap w)))))
    ∧ d !! "province/state" = Some (dict_get e "state")
    ∧ (∃ text stamp,
         e !! "access_time" = Some (VStr text)
         ∧ strptime_timestamp E text "%Y-%m-%d %H:%M:%S" = Some stamp
         ∧ d !! "access_time" = Some (VFloat stamp))
    ∧ (if is_str (dict_get e "updated")
       then ∃ text stamp,
              e !! "updated" = Some (VStr text)
              ∧ strptime_timestamp E text "%B %d, %Y" = Some stamp
              ∧ d !! "updated" = Some (VFloat stamp)
       else d !! "updated" = e !! "updated")
    ∧ (∀ key,
         key ∉ ["lat"; "lon"; "state"; "province/state"; "updated"; "page";
                "access_time"; "geometry"; "fips"] →
         d !! key = e !! key).
Proof.
  intros Hentry Hrun.
  destruct (entry_to_act_document E fuel self entry e w act w' Hentry Hrun)
    as (d & Hheap & Hstate & Htime & Hupd & Hrest & _).
  destruct (entry_to_act_spec E fuel self entry e w (Ok act) w' Hentry Hrun)
    as (d' & Hheap' & Hact).
  destruct (Hact act eq_refl) as ((id & _ & Hbody) & _).
  exists d. split; [rewrite Hheap; apply lookup_insert_eq |].
  split; [intros key Hkey; rewrite Hbody, Hkey; apply lookup_insert_eq |].
  auto.
Qed.

(** The sample entry: its cases are copied, its state is renamed. *)
Lemma entry_to_act_document_fields_witness :
  ∃ act w' d,
    parse.entry_to_act up 1 builder 0%nat w0 = Some (Ok act, w')
    ∧ heap w' !! fresh (dom (heap w0)) = Some d
    ∧ d !! "province/state" = Some (VStr "Tennessee")
    ∧ d !! "cases" = Some (VInt 12).
Proof.
  destruct entry0_action as (act & w' & Hrun).
  destruct (entry_to_act_document_fields up 1 builder 0%nat entry0 w0 act w'
              eq_refl Hrun)
    as (d & Hd & _ & Hstate & _ & _ & Hrest).
  exists act, w', d. split; [exact Hrun |]. split; [exact Hd |].
  split; [exact Hstate |].
  rewrite Hrest; [reflexivity |].
  rewrite !not_elem_of_cons. repeat (split; [discriminate |]). apply not_elem_of_nil.
Defined.

(** *** Without coordinates nothing is sent *)

Lemma silent_ret {A} (a : A) : silent (ret a).
Proof. intros w. exists (Ok a), w. auto. Qed.

Lemma silent_raise {A} (e : exn) : silent (raise e : M A).
Proof. intros w. exists (Err e), w. auto. Qed.

Lemma silent_lift {A} (r : result A) : silent (lift r).
Proof. destruct r; [apply silent_ret | apply silent_raise]. Qed.

Lemma silent_bind {A B} (c : M A) (k : A → M B) :
  silent c → (∀ a, silent (k a)) → silent (bind c k).
Proof.
  intros Hc Hk w. destruct (Hc w) as (r & w1 & Hrun & Hreq & Htr).
  unfold bind. rewrite Hrun. destruct r as [a | e].
  - destruct (Hk a w1) as (r' & w2 & Hrun' & Hreq' & Htr').
    exists r', w2. split; [exact Hrun' |]. split; congruence.
  - exists (Err e), w1. auto.
Qed.

Lemma silent_dict_read (l : loc) : silent (dict_read l).
Proof.
  intros w. unfold dict_read. destruct (heap w !! l); eexists _, _; eauto.
Qed.

Lemma silent_dict_write (l : loc) (d : gmap string value) : silent (dict_write l d).
Proof. intros w. eexists _, _. split; [reflexivity |]. auto. Qed.

Lemma silent_dict_contains (l : loc) (key : string) : silent (dict_contains l key).
Proof.
  apply silent_bind; [apply silent_dict_read | intros; apply silent_ret].
Qed.

Lemma silent_dict_getitem (l : loc) (key : string) : silent (dict_getitem l key).
Proof.
  apply silent_bind; [apply silent_dict_read |].
  intros d. destruct (d !! key); [apply silent_ret | apply silent_raise].
Qed.

Lemma silent_dict_setitem (l : loc) (key : string) (v : value) :
  silent (dict_setitem l key v).
Proof.
  apply silent_bind; [apply silent_dict_read | intros; apply silent_dict_write].
Qed.

Lemma silent_dict_pop (l : loc) (key : string) : silent (dict_pop l key).
Proof.
  apply silent_bind; [apply silent_dict_read |].
  intros d. destruct (d !! key); [| apply silent_raise].
  apply silent_bind; [apply silent_dict_write | intros; apply silent_ret].
Qed.

Lemma silent_dict_pop_default (l : loc) (key : string) (dflt : value) :
  silent (dict_pop_default l key dflt).
Proof.
  apply silent_bind; [apply silent_dict_read |].
  intros d. destruct (d !! key); [| apply silent_ret].
  apply silent_bind; [apply silent_dict_write | intros; apply silent_ret].
Qed.

Lemma silent_strptime (E : env) (text : value) (format : string) :
  silent (parse.strptime E text format).
Proof.
  unfold parse.strptime. destruct text; try apply silent_raise.
  destruct (strptime_timestamp E _ format); [apply silent_ret | apply silent_raise].
Qed.

Create HintDb silent.
#[local] Hint Resolve silent_ret silent_raise silent_lift silent_dict_read
  silent_dict_write silent_dict_contains silent_dict_getitem silent_dict_setitem
  silent_dict_pop silent_dict_pop_default silent_strptime : silent.

(** X10.  For an entry without one of its coordinates, [entry_to_act] sends
    no request and does not sleep, whether it returns or raises, and it ends
    whatever the fuel: the lookup is the only step that goes to the network. *)
Theorem entry_to_act_silent_without_coordinates (E : env) (fuel : nat)
    (self : parse.ElasticParse) (entry : loc) (e : gmap string value) (w : world) :
  heap w !! entry = Some e →
  is_not_None (dict_get e "lat") && is_not_None (dict_get e "lon") = false →
  ∃ r w',
    parse.entry_to_act E fuel self entry w = Some (r, w')
    ∧ requests w' = requests w
    ∧ trace w' = trace w.
Proof.
  intros Hentry Hgeo.
  set (doc := fresh (dom (heap w))).
  unfold parse.entry_to_act.
  rewrite (bind_ok _ _ w {| heap := <[doc := e]> (heap w); requests := requests w;
                             trace := trace w |} doc).
  2: { unfold dict_copy, bind, dict_read. rewrite Hentry. reflexivity. }
  rewrite (bind_ok _ _ _ _ _ (pop_if_present (heap w) doc "lat" e _ _)).
  rewrite (bind_ok _ _ _ _ _ (pop_if_present (heap w) doc "lon" _ _ _)).
  replace (dict_get (delete "lat" e) "lon") with (dict_get e "lon")
    by (unfold dict_get; rewrite lookup_delete_ne by discriminate; reflexivity).
  rewrite Hgeo.
  match goal with
  | |- ∃ r w', ?c ?w1 = _ ∧ _ => assert (Hsilent : silent c)
  end.
  { repeat first
      [ solve [auto with silent]
      | match goal with |- silent (if ?b then _ else _) => destruct b end
      | apply silent_bind; [| intros ?] ]. }
  destruct (Hsilent {| heap := <[doc := delete "lon" (delete "lat" e)]> (heap w);
                       requests := requests w; trace := trace w |})
    as (r & w' & Hrun & Hreq & Htr).
  exists r, w'. auto.
Qed.

(** The entry that brings its own geometry has no coordinates: no request,
    and no fuel is needed. *)
Lemma entry_to_act_silent_without_coordinates_witness :
  ∃ r w',
    parse.entry_to_act up 0 builder 0%nat w1 = Some (r, w')
    ∧ requests w' = 0%nat
    ∧ trace w' = [].
Proof.
  apply (entry_to_act_silent_without_coordinates up 0 builder 0%nat
           entry_own_geometry w1).
  - reflexivity.
  - vm_compute. reflexivity.
Defined.

(** ** The actions of parse.py *)

(** The actions of a list of entries, all among the objects [h0] that the
    heap holds: whatever the outcome, these objects are as they were; when
    the list is mapped, there is one action per entry, in order, with the
    identifier of that entry. *)
Lemma map_entry_to_act_spec (E : env) (fuel : nat) (self : parse.ElasticParse)
    (h0 : gmap loc (gmap string value)) (entries : list loc) :
  ∀ (w : world) (r : result (list (gmap string value))) (w' : world),
    (∀ l, is_Some (h0 !! l) → heap w !! l = h0 !! l) →
    Forall (λ entry, is_Some (h0 !! entry)) entries →
    parse.map_entry_to_act E fuel self entries w = Some (r, w') →
    (∀ l, is_Some (h0 !! l) → heap w' !! l = h0 !! l)
    ∧ ∀ acts, r = Ok acts →
        Forall2 (λ entry act,
                   ∃ e id,
                     h0 !! entry = Some e
                     ∧ parse.gen_id E e = Ok id
                     ∧ (parse.body_name self ≠ Some "_id" →
                        act !! "_id" = Some (VStr id)))
                entries acts.
Proof.
  induction entries as [| entry entries IH]; intros w r w' Hbase Hin Hrun.
  - cbn [parse.map_entry_to_act] in Hrun. unfold ret in Hrun. simplify_eq.
    split; [exact Hbase |]. intros acts [= <-]. constructor.
  - cbn [parse.map_entry_to_act] in Hrun.
    apply Forall_cons in Hin as [[e Hentry0] Hin].
    assert (Hentry : heap w !! entry = Some e)
      by (rewrite Hbase by eauto; exact Hentry0).
    assert (Hstep : ∀ d l, is_Some (h0 !! l) →
              <[fresh (dom (heap w)) := d]> (heap w) !! l = h0 !! l).
    { intros d l Hl. rewrite lookup_insert_ne; [apply Hbase; exact Hl |].
      intros <-. apply (is_fresh (dom (heap w))). apply elem_of_dom.
      rewrite Hbase by exact Hl. exact Hl. }
    apply bind_inv in Hrun as [(act & w1 & Hact & Hrun) | (ex & Hact & ->)].
    + destruct (entry_to_act_spec E fuel self entry e w (Ok act) w1 Hentry Hact)
        as (d & Hheap & Hok).
      assert (Hbase1 : ∀ l, is_Some (h0 !! l) → heap w1 !! l = h0 !! l)
        by (intros l Hl; rewrite Hheap; apply Hstep; exact Hl).
      apply bind_inv in Hrun as [(acts & w2 & Hmap & Hret) | (ex & Hmap & ->)].
      * unfold ret in Hret. simplify_eq.
        destruct (IH w1 (Ok acts) w' Hbase1 Hin Hmap) as [Hframe Hacts].
        split; [exact Hframe |].
        intros acts' [= <-]. constructor; [| exact (Hacts acts eq_refl)].
        destruct (Hok act eq_refl) as ((id & Hid & Hbody) & _).
        exists e, id. split; [exact Hentry0 |]. split; [exact Hid |].
        intros Hkey. rewrite Hbody. destruct (parse.body_name self) as [key |].
        -- rewrite lookup_insert_ne by congruence. apply lookup_insert_eq.
        -- apply lookup_insert_eq.
      * destruct (IH w1 (Err ex) w' Hbase1 Hin Hmap) as [Hframe _].
        split; [exact Hframe | discriminate].
    + destruct (entry_to_act_spec E fuel self entry e w (Err ex) w' Hentry Hact)
        as (d & Hheap & _).
      split; [| discriminate].
      intros l Hl. rewrite Hheap. apply Hstep. exact Hl.
Qed.

(** X11.  [gen_actions], given entries that are all in the heap, leaves
    every object that the heap held as it was, whether it returns or raises;
    when it returns there is one action per entry, in the order of the
    entries, each with the operation type of the builder and (unless the
    document is stored under _id) the identifier of its entry. *)
Theorem gen_actions_one_action_per_entry (E : env) (fuel : nat)
    (self : parse.ElasticParse) (w : world)
    (r : result (list (gmap string value))) (w' : world) :
  Forall (λ entry, is_Some (heap w !! entry)) (parse._entries self) →
  parse.gen_actions E fuel self w = Some (r, w') →
  (∀ l, is_Some (heap w !! l) → heap w' !! l = heap w !! l)
  ∧ ∀ actions, r = Ok actions →
      Forall2 (λ entry act,
                 ∃ e id,
                   heap w !! entry = Some e
                   ∧ parse.gen_id E e = Ok id
                   ∧ act !! "_op_type" = Some (VStr (parse.op_type self))
                   ∧ (parse.body_name self ≠ Some "_id" →
                      act !! "_id" = Some (VStr id)))
              (parse._entries self) actions.
Proof.
  intros Hin Hrun. unfold parse.gen_actions in Hrun.
  apply bind_inv in Hrun as [(acts & w1 & Hmap & Hret) | (ex & Hmap & ->)].
  - unfold ret in Hret. simplify_eq.
    destruct (map_entry_to_act_spec E fuel self (heap w) (parse._entries self)
                w (Ok acts) w' (λ l _, eq_refl) Hin Hmap) as [Hframe Hacts].
    split; [exact Hframe |]. intros actions [= <-].
    apply Forall2_fmap_r.
    eapply Forall2_impl; [exact (Hacts acts eq_refl) |].
    intros entry act (e & id & He & Hid & Hkey). exists e, id.
    split; [exact He |]. split; [exact Hid |].
    split; [apply lookup_insert_eq |].
    intros Hne. rewrite lookup_insert_ne by discriminate. apply Hkey. exact Hne.
  - destruct (map_entry_to_act_spec E fuel self (heap w) (parse._entries self)
                w (Err ex) w' (λ l _, eq_refl) Hin Hmap) as [Hframe _].
    split; [exact Hframe | discriminate].
Qed.

(** The sample builder: one entry, one action for the kind index, and the
    entry is as it was. *)
Lemma gen_actions_one_action_per_entry_witness :
  ∃ act w',
    parse.gen_actions up 1 builder w0 = Some (Ok [act], w')
    ∧ act !! "_op_type" = Some (VStr "index")
    ∧ heap w' !! 0%nat = Some entry0.
Proof.
  destruct entry0_action as (act & w' & Hrun).
  assert (Hgen : parse.gen_actions up 1 builder w0
                 = Some (Ok [<["_op_type" := VStr "index"]> act], w')).
  { unfold parse.gen_actions. cbn [parse._entries builder parse.map_entry_to_act].
    unfold bind. rewrite Hrun. reflexivity. }
  assert (Hin : Forall (λ entry, is_Some (heap w0 !! entry)) (parse._entries builder))
    by (constructor; [eexists; reflexivity | constructor]).
  destruct (gen_actions_one_action_per_entry up 1 builder w0 _ w' Hin Hgen)
    as [Hframe _].
  eexists _, w'. split; [exact Hgen |].
  split; [apply lookup_insert_eq |].
  apply (Hframe 0%nat). eexists. reflexivity.
Defined.

(** ** The source generator: which rows, in which order *)

(** One [next()]: a record that comes out is the first of the rows not yet
    handed out; after any other signal nothing is left to hand out. *)
Lemma next_remaining (src : pipe.source) (chunk_size : nat)
    (st st' : pipe.state) (sig : pipe.signal) :
  pipe.next src chunk_size st = (sig, st') →
  match sig with
  | pipe.Yield item => pipe.remaining src st = item :: pipe.remaining src st'
  | _ => pipe.remaining src st' = []
  end.
Proof.
  destruct st as [self g]. unfold pipe.remaining. unfold_next. cbn [fst snd].
  destruct (pipe.pc g) as [| pending |] eqn:Hpc.
  - destruct (pipe.connect_fails src); [intros [= <- <-]; reflexivity |].
    destruct (pipe.execute_fails src); [intros [= <- <-]; reflexivity |].
    cbn [pipe.limit pipe.transfer_count pipe.fetches pipe.unread pipe.pc
         pipe.cursor pipe.query andb].
    destruct (if pipe.limit self =? -1 then true
              else pipe.transfer_count self <? pipe.limit self);
      [| intros [= <- <-]; reflexivity].
    destruct (pipe.fetch_fails src (pipe.fetches g));
      [intros [= <- <-]; reflexivity |].
    destruct (take chunk_size (pipe.table src)) as [| item pending] eqn:Hchunk;
      intros [= <- <-]; [reflexivity |].
    cbn [pipe.pc pipe.unread snd].
    rewrite <- (take_drop chunk_size (pipe.table src)) at 1.
    rewrite Hchunk. reflexivity.
  - cbn [pipe.limit pipe.transfer_count].
    destruct (negb (pipe.limit self =? -1)
              && (pipe.limit self <=? pipe.transfer_count self + 1)) eqn:Hbreak.
    + apply andb_true_iff in Hbreak as [Hlim Hle].
      apply negb_true_iff in Hlim. rewrite Hlim.
      apply Z.leb_le in Hle.
      replace (pipe.transfer_count self + 1 <? pipe.limit self) with false
        by (symmetry; apply Z.ltb_ge; exact Hle).
      cbn [andb]. intros [= <- <-]. reflexivity.
    + destruct pending as [| item pending'].
      * cbn [andb].
        destruct (if pipe.limit self =? -1 then true
                  else pipe.transfer_count self + 1 <? pipe.limit self);
          [| intros [= <- <-]; reflexivity].
        destruct (pipe.fetch_fails src (pipe.fetches g));
          [intros [= <- <-]; reflexivity |].
        destruct (take chunk_size (pipe.unread g)) as [| item pending] eqn:Hchunk;
          intros [= <- <-]; [reflexivity |].
        cbn [pipe.pc pipe.unread snd app].
        rewrite <- (take_drop chunk_size (pipe.unread g)) at 1.
        rewrite Hchunk. reflexivity.
      * intros [= <- <-]. reflexivity.
  - intros [= <- <-]. cbn [snd]. rewrite Hpc. reflexivity.
Qed.

Lemma pull_remaining (src : pipe.source) (chunk_size : nat) (n : nat) :
  ∀ st, pipe.records (fst (pipe.pull src chunk_size n st))
        `prefix_of` pipe.remaining src st.
Proof.
  induction n as [| n IH]; intros st; [apply prefix_nil |].
  cbn [pipe.pull].
  destruct (pipe.next src chunk_size st) as [sig st'] eqn:Hnext.
  specialize (IH st').
  destruct (pipe.pull src chunk_size n st') as [sigs st''].
  cbn [fst] in *. apply next_remaining in Hnext.
  destruct sig as [item | | e]; cbn [pipe.records].
  - rewrite Hnext. apply prefix_cons. exact IH.
  - rewrite Hnext in IH. apply prefix_nil_inv in IH. rewrite IH. apply prefix_nil.
  - rewrite Hnext in IH. apply prefix_nil_inv in IH. rewrite IH. apply prefix_nil.
Qed.

(** X12.  Whatever the limit, the count so far, the size of the chunks and
    the failures of the database, the records that a consumer has received
    after any number of pulls are the first rows that the query selects, in
    their order: no row is skipped, repeated or reordered. *)
Theorem gen_data_source_yields_prefix (src : pipe.source) (chunk_size n : nat)
    (self : pipe.Pipe) :
  pipe.records (fst (pipe.pull src chunk_size n (self, pipe.gen_data_source)))
  `prefix_of` pipe.table src.
Proof.
  apply (pull_remaining src chunk_size n (self, pipe.gen_data_source)).
Qed.

(** A generator that has finished answers StopIteration and stays as it is. *)
Lemma pull_finished_records (src : pipe.source) (chunk_size : nat) (n : nat)
    (st : pipe.state) :
  pipe.pc (snd st) = pipe.Finished →
  pipe.records (fst (pipe.pull src chunk_size n st)) = []
  ∧ snd (pipe.pull src chunk_size n st) = st.
Proof.
  intros Hpc. split; [| apply pull_finished; exact Hpc].
  pose proof (pull_remaining src chunk_size n st) as Hprefix.
  unfold pipe.remaining in Hprefix. rewrite Hpc in Hprefix.
  apply prefix_nil_inv in Hprefix. exact Hprefix.
Qed.

(** X13.  A pipeline whose count has reached its limit hands out nothing:
    with a limit of 0, with a negative limit other than -1, or used again
    after a run that reached the limit (the count is not reset), the
    generator yields no record, fetches no chunk and leaves the count as it
    is, however often it is pulled. *)
Theorem gen_data_source_limit_reached (src : pipe.source) (chunk_size n : nat)
    (self : pipe.Pipe) :
  pipe.limit self ≠ -1 →
  pipe.limit self ≤ pipe.transfer_count self →
  let run := pipe.pull src chunk_size n (self, pipe.gen_data_source) in
  pipe.records (fst run) = []
  ∧ pipe.fetches (snd (snd run)) = 0%nat
  ∧ fst (snd run) = self.
Proof.
  intros Hlimit Hreached run. subst run.
  destruct n as [| n]; [split; [reflexivity |]; split; reflexivity |].
  cbn [pipe.pull].
  destruct (pipe.next src chunk_size (self, pipe.gen_data_source))
    as [sig st'] eqn:Hnext.
  assert (Hst' : (∀ item, sig ≠ pipe.Yield item)
                 ∧ pipe.pc (snd st') = pipe.Finished
                 ∧ pipe.fetches (snd st') = 0%nat
                 ∧ fst st' = self).
  { revert Hnext. unfold_next. cbn [fst snd pipe.pc pipe.gen_data_source].
    destruct (pipe.connect_fails src);
      [intros [= <- <-]; split; [discriminate |]; split; [| split]; reflexivity |].
    destruct (pipe.execute_fails src);
      [intros [= <- <-]; split; [discriminate |]; split; [| split]; reflexivity |].
    replace (pipe.limit self =? -1) with false
      by (symmetry; apply Z.eqb_neq; exact Hlimit).
    replace (pipe.transfer_count self <? pipe.limit self) with false
      by (symmetry; apply Z.ltb_ge; exact Hreached).
    cbn [andb]. intros [= <- <-].
    split; [discriminate |]. split; [| split]; reflexivity. }
  destruct Hst' as (Hsig & Hpc & Hfetches & Hself).
  destruct (pull_finished_records src chunk_size n st' Hpc) as [Hrecords Hsnd].
  destruct (pipe.pull src chunk_size n st') as [sigs st''].
  cbn [fst snd] in *. subst st''.
  split; [| split; [exact Hfetches | exact Hself]].
  destruct sig as [item | | e]; cbn [pipe.records];
    [exfalso; exact (Hsig item eq_refl) | exact Hrecords | exact Hrecords].
Qed.

(** Three rows and a limit of 0: nothing comes out, and nothing is fetched. *)
Lemma gen_data_source_limit_reached_witness :
  pipe.records (fst (pipe.pull db3 500 2 (pipe.__init__ 0 "" "", pipe.gen_data_source)))
  = []
  ∧ pipe.fetches (snd (snd (pipe.pull db3 500 2
                              (pipe.__init__ 0 "" "", pipe.gen_data_source))))
    = 0%nat.
Proof.
  destruct (gen_data_source_limit_reached db3 500 2 (pipe.__init__ 0 "" ""))
    as (Hrecords & Hfetches & _).
  - simpl. lia.
  - simpl. lia.
  - split; [exact Hrecords | exact Hfetches].
Defined.

(** ** The document and the action of pipe.py *)

(** The keys of a document that the table fills in: the targets of the
    table, and what the document held before. *)
Lemma fill_keys (config : pipe.TCFG) (data_point : gmap string value) :
  ∀ doc0 doc,
    pipe.fill config data_point doc0 = Ok doc →
    ∀ key, is_Some (doc !! key) ↔ key ∈ config.*1 ∨ is_Some (doc0 !! key).
Proof.
  induction config as [| [target val] config IH]; intros doc0 doc Hfill key.
  - cbn [pipe.fill] in Hfill. simplify_eq. cbn [fmap list_fmap].
    rewrite elem_of_nil. tauto.
  - cbn [pipe.fill] in Hfill. destruct (val data_point) as [v | e]; [| discriminate].
    rewrite (IH _ _ Hfill key). cbn [fmap list_fmap fst].
    rewrite elem_of_cons, lookup_insert_is_Some.
    destruct (decide (target = key)) as [-> | Hne]; [tauto |].
    split; [intros [? | [? | [_ ?]]]; auto; congruence |].
    intros [[? | ?] | ?]; auto; congruence.
Qed.

(** X14.  The document of a row has the same keys whatever columns the
    row has: the twenty targets of the transformation table, provider and
    createdAt, and with them fips and geometry exactly when the row has both
    coordinates.  The provider is always state. *)
Theorem transform_document_keys (E : env) (fuel : nat)
    (data_point doc : gmap string value) (w w' : world) :
  pipe._transform_data_to_document E fuel data_point "lat" "lon" w
  = Some (Ok doc, w') →
  let both := present data_point "county_lat" ∧ present data_point "county_lon" in
  (∀ key,
     is_Some (doc !! key)
     ↔ key ∈ (pipe.table_fields ++ ["provider"; "createdAt"])%list
       ∨ (both ∧ key ∈ ["fips"; "geometry"]))
  ∧ doc !! "provider" = Some (VStr "state").
Proof.
  intros Hrun both.
  destruct (transform_geometry E fuel data_point doc w w' Hrun)
    as (Hgeom & Hfips & _). fold both in Hgeom, Hfips.
  unfold pipe._transform_data_to_document in Hrun.
  apply bind_inv in Hrun as [(doc0 & w1 & Hfill & Hrun) | (ex & _ & [=])].
  unfold lift, ret, raise in Hfill.
  destruct (pipe.fill (pipe.transform_config E) data_point ∅) as [doc0' |] eqn:Hcfg;
    simplify_eq.
  pose proof (fill_keys _ _ _ _ Hcfg) as Hkeys.
  change ((pipe.transform_config E).*1) with pipe.table_fields in Hkeys.
  apply bind_inv in Hrun as [(doc1 & w2 & Hgeo & Hrun) | (ex & _ & [=])].
  unfold bind, pipe.utcnow_isoformat, ret in Hrun. simplify_eq.
  assert (Hdoc1 : ∀ key, key ≠ "fips" → key ≠ "geometry" →
            doc1 !! key = doc0 !! key).
  { intros key Hf Hg. revert Hgeo.
    match goal with |- (if ?b then _ else _) _ = _ → _ => destruct b end.
    - intros Hgeo.
      apply bind_inv in Hgeo as [(fips & w3 & _ & Hgeo) | (ex & _ & [=])].
      unfold ret in Hgeo. simplify_eq.
      rewrite !lookup_insert_ne by congruence. reflexivity.
    - unfold ret. intros [= <- <-]. reflexivity. }
  split; [| rewrite lookup_insert_ne by discriminate; apply lookup_insert_eq].
  intros key.
  destruct (decide (key = "geometry")) as [-> | Hg].
  { rewrite Hgeom.
    split; [intros H; right; split;
            [exact H | apply list_elem_of_further, list_elem_of_here] |].
    intros [Hin | [H _]]; [| exact H].
    exfalso. revert Hin. unfold pipe.table_fields. cbn [app].
    rewrite !elem_of_cons, elem_of_nil. intros Hin.
    repeat destruct Hin as [Hin | Hin]; try discriminate Hin; exact Hin. }
  destruct (decide (key = "fips")) as [-> | Hf].
  { rewrite Hfips.
    split; [intros H; right; split; [exact H | apply list_elem_of_here] |].
    intros [Hin | [H _]]; [| exact H].
    exfalso. revert Hin. unfold pipe.table_fields. cbn [app].
    rewrite !elem_of_cons, elem_of_nil. intros Hin.
    repeat destruct Hin as [Hin | Hin]; try discriminate Hin; exact Hin. }
  rewrite !lookup_insert_is_Some, Hdoc1, Hkeys by assumption.
  rewrite lookup_empty, elem_of_app, !elem_of_cons, elem_of_nil.
  split.
  - intros [<- | [_ [<- | [_ [Hin | [? [=]]]]]]]; auto.
  - intros [[Hin | [-> | [-> | []]]] | [_ [? | [? | []]]]]; try congruence.
    + destruct (decide ("createdAt" = key)); [auto |]. right. split; [assumption |].
      destruct (decide ("provider" = key)); [auto |]. right. split; [assumption |].
      auto.
    + right. split; [discriminate |]. auto.
    + auto.
Qed.

(** The sample row has both coordinates: its document has the targets of
    the table, tested among them, and the region codes. *)
Lemma transform_document_keys_witness :
  ∃ doc w',
    pipe._transform_data_to_document up 1 row0 "lat" "lon" w0 = Some (Ok doc, w')
    ∧ is_Some (doc !! "tested")
    ∧ is_Some (doc !! "fips")
    ∧ doc !! "provider" = Some (VStr "state").
Proof.
  destruct row0_document as (doc & w' & Hrun).
  destruct (transform_document_keys up 1 row0 doc w0 w' Hrun) as [Hkeys Hprovider].
  exists doc, w'. split; [exact Hrun |].
  split; [apply Hkeys; left; unfold pipe.table_fields; cbn [app];
          rewrite !elem_of_cons; auto 30 |].
  split; [| exact Hprovider].
  apply Hkeys. right. split; [| apply list_elem_of_here].
  split; [exists lat0 | exists lon0]; (split; [reflexivity | discriminate]).
Defined.

(** The two fields that the table reads from the access time of a row. *)
Lemma fill_county_config_times (E : env) (data_point doc : gmap string value)
    (t : Z) :
  data_point !! "access_time" = Some (VDatetime t) →
  pipe.fill (pipe.transform_config E) data_point ∅ = Ok doc →
  doc !! "access_time" = Some (VStr (isoformat E t))
  ∧ doc !! "scrape_group" = Some (VStr (strftime E t "%Y%m%d%H")).
Proof.
  intros Htime.
  unfold pipe.transform_config, pipe.pg_to_es_county_config.
  cbn [pipe.fill].
  replace (pipe.mg "access_time" (pipe.as_value (pipe.dt_to_str E)) data_point)
    with (Ok (VStr (isoformat E t)) : result value)
    by (unfold pipe.mg, dict_get; rewrite Htime; reflexivity).
  replace (pipe.mg "access_time" (pipe.as_value (pipe.access_to_scrape E)) data_point)
    with (Ok (VStr (strftime E t "%Y%m%d%H")) : result value)
    by (unfold pipe.mg, dict_get; rewrite Htime; reflexivity).
  intros Hfill.
  repeat match type of Hfill with
         | match ?g with Ok _ => _ | Err _ => _ end = _ =>
             let v := fresh "v" in
             let H := fresh "Hv" in
             destruct g as [v |] eqn:H; [| discriminate Hfill]
         end.
  simplify_eq.
  split; rewrite !lookup_insert_ne by discriminate; apply lookup_insert_eq.
Qed.

(** What the transformation adds to the table filled in: fips, geometry,
    provider and createdAt, and it changes no other key. *)
Lemma transform_keeps_table (E : env) (fuel : nat)
    (data_point doc : gmap string value) (lat_name lon_name : string)
    (w w' : world) :
  pipe._transform_data_to_document E fuel data_point lat_name lon_name w
  = Some (Ok doc, w') →
  ∃ doc0,
    pipe.fill (pipe.transform_config E) data_point ∅ = Ok doc0
    ∧ ∀ key, key ∉ ["fips"; "geometry"; "provider"; "createdAt"] →
             doc !! key = doc0 !! key.
Proof.
  intros Hrun. unfold pipe._transform_data_to_document in Hrun.
  apply bind_inv in Hrun as [(doc0 & w1 & Hfill & Hrun) | (ex & _ & [=])].
  unfold lift, ret, raise in Hfill.
  destruct (pipe.fill (pipe.transform_config E) data_point ∅) as [doc0' |] eqn:Hcfg;
    simplify_eq.
  exists doc0. split; [reflexivity |].
  intros key Hkey. rewrite !not_elem_of_cons in Hkey.
  destruct Hkey as (Hf & Hg & Hp & Hc & _).
  apply bind_inv in Hrun as [(doc1 & w2 & Hgeo & Hrun) | (ex & _ & [=])].
  unfold bind, pipe.utcnow_isoformat, ret in Hrun. simplify_eq.
  rewrite !lookup_insert_ne by congruence.
  revert Hgeo.
  match goal with |- (if ?b then _ else _) _ = _ → _ => destruct b end.
  - intros Hgeo.
    apply bind_inv in Hgeo as [(fips & w3 & _ & Hgeo) | (ex & _ & [=])].
    unfold ret in Hgeo. simplify_eq.
    rewrite !lookup_insert_ne by congruence. reflexivity.
  - unfold ret. intros [= <- <-]. reflexivity.
Qed.

(** X15.  [gen_action_from_data] computes the identifier before anything
    else: a row whose access time is not a datetime raises AttributeError,
    and nothing has been asked of the network.  An action that is returned
    has exactly the keys _op_type, _index, _id and _source, with the operation
    index and the identifier of the row; its document holds the access time
    in ISO format and the scrape group, the access time to the hour. *)
Theorem gen_action_from_data_shape (E : env) (fuel : nat)
    (data_point : gmap string value) (w : world) :
  (∀ act w',
     pipe.gen_action_from_data E fuel data_point w = Some (Ok act, w') →
     ∃ t id source,
       data_point !! "access_time" = Some (VDatetime t)
       ∧ pipe.county_gen_id E data_point = Ok id
       ∧ act = {[ "_source" := VDict source; "_id" := VStr id;
                  "_index" := VStr (pipe._index E); "_op_type" := VStr "index" ]}
       ∧ source !! "access_time" = Some (VStr (isoformat E t))
       ∧ source !! "scrape_group" = Some (VStr (strftime E t "%Y%m%d%H")))
  ∧ ((∀ t, data_point !! "access_time" ≠ Some (VDatetime t)) →
     pipe.gen_action_from_data E fuel data_point w = Some (Err AttributeError, w)).
Proof.
  split.
  - intros act w' Hrun. unfold pipe.gen_action_from_data in Hrun.
    apply bind_inv in Hrun as [(id & w1 & Hid & Hrun) | (ex & _ & [=])].
    unfold lift, ret, raise in Hid.
    destruct (pipe.county_gen_id E data_point) as [id' |] eqn:Hcounty; simplify_eq.
    apply bind_inv in Hrun as [(source & w2 & Hdoc & Hrun) | (ex & _ & [=])].
    unfold ret in Hrun. simplify_eq.
    assert (Htime : ∃ t, data_point !! "access_time" = Some (VDatetime t)).
    { unfold pipe.county_gen_id, dict_get in Hcounty.
      destruct (data_point !! "access_time") as [[| | | | | t | | |] |];
        try discriminate Hcounty.
      exists t. reflexivity. }
    destruct Htime as [t Htime].
    destruct (transform_keeps_table E fuel data_point source "lat" "lon" w1 w' Hdoc)
      as (doc0 & Hfill & Hkeep).
    destruct (fill_county_config_times E data_point doc0 t Htime Hfill)
      as [Haccess Hgroup].
    exists t, id, source.
    split; [exact Htime |]. split; [reflexivity |]. split; [reflexivity |].
    split; (rewrite Hkeep; [assumption |]);
      rewrite !not_elem_of_cons; repeat (split; [discriminate |]);
      apply not_elem_of_nil.
  - intros Htime. unfold pipe.gen_action_from_data.
    replace (pipe.county_gen_id E data_point) with (Err AttributeError : result string);
      [reflexivity |].
    unfold pipe.county_gen_id, dict_get.
    destruct (data_point !! "access_time") as [[| | | | | t | | |] |] eqn:Hv;
      try reflexivity.
    exfalso. exact (Htime t eq_refl).
Qed.

(** The sample row: an action for the kind index whose document holds the
    access time of the row in ISO format. *)
Lemma gen_action_from_data_shape_witness :
  ∃ act w' source,
    pipe.gen_action_from_data up 1 row0 w0 = Some (Ok act, w')
    ∧ act !! "_source" = Some (VDict source)
    ∧ source !! "access_time" = Some (VStr (isoformat up 1585742400)).
Proof.
  destruct row0_document as (doc & w' & Hrun).
  assert (Hid : ∃ id, pipe.county_gen_id up row0 = Ok id)
    by (eexists; vm_compute; reflexivity).
  destruct Hid as [id Hid].
  assert (Hact : pipe.gen_action_from_data up 1 row0 w0
                 = Some (Ok {[ "_source" := VDict doc; "_id" := VStr id;
                               "_index" := VStr (pipe._index up);
                               "_op_type" := VStr "index" ]}, w')).
  { unfold pipe.gen_action_from_data. rewrite Hid.
    unfold bind, lift, ret. rewrite Hrun. reflexivity. }
  destruct (proj1 (gen_action_from_data_shape up 1 row0 w0) _ _ Hact)
    as (t & id' & source & Htime & _ & Hshape & Haccess & _).
  assert (Ht : t = 1585742400).
  { assert (Hrow : row0 !! "access_time" = Some (VDatetime 1585742400))
      by reflexivity.
    congruence. }
  subst t.
  eexists _, w', source. split; [exact Hact |].
  split; [rewrite Hshape; apply lookup_insert_eq | exact Haccess].
Defined.
